(** * OWDL workflow driver (onedocker/onedocker_lib/service/owdl_driver.py)

    A shallow embedding of [OWDLDriver]: the workflow / state status model,
    state execution, and the driver's start / next / retry / cancel /
    get_status operations, written as computations in a state-and-exception
    monad over the driver object.  A Python exception does not roll back the
    assignments made before it, so a computation returns its outcome together
    with the driver as the call left it. *)

From stdpp Require Import base option list strings gmap.
From Stdlib Require Import ZArith Lia.

Open Scope string_scope.
Open Scope list_scope.
Open Scope Z_scope.

(** ** Entities *)

(** Modelled from the spec: [ContainerInstanceStatus] is declared in
    fbpcs/entity/container_instance.py, which is not part of the sources; the
    spec lists the four values, and the driver names three of them. *)
Inductive ContainerInstanceStatus :=
| CI_UNKNOWN
| CI_STARTED
| CI_COMPLETED
| CI_FAILED.

(** Modelled from the spec: a container handle is an identifier and a status;
    these are the two attributes the driver reads. *)
Record ContainerInstance := {
  instance_id : string;
  c_status : ContainerInstanceStatus;
}.

(** owdl_state_instance.Status, with the values the driver names. *)
Inductive StateStatus :=
| S_STARTED
| S_COMPLETED
| S_FAILED
| S_CANCELLED.

(** owdl_workflow_instance.Status, with the values the driver names. *)
Inductive WorkflowStatus :=
| W_CREATED
| W_STARTED
| W_COMPLETED
| W_FAILED
| W_CANCELLED.

#[global] Instance ContainerInstanceStatus_eq_dec : EqDecision ContainerInstanceStatus.
Proof. solve_decision. Defined.
#[global] Instance StateStatus_eq_dec : EqDecision StateStatus.
Proof. solve_decision. Defined.
#[global] Instance WorkflowStatus_eq_dec : EqDecision WorkflowStatus.
Proof. solve_decision. Defined.

(** Modelled from the spec: [OWDLState] is declared in
    onedocker_lib/entity/owdl_state.py, which is not part of the sources.  The
    fields are the attributes the driver reads.  A state definition is an
    immutable Python object; [state_oid] stands for the identity of that
    object, because the spec has two definitions count as the same one by
    object identity and not by value. *)
Record OWDLState := {
  state_oid : positive;
  container_definition : string;
  package_name : string;
  cmd_args_list : list string;
  timeout : option Z;
  retry_count : Z;
  next_ : option string;
  end_ : bool;
}.

(** Modelled from the spec: [state_inst.owdl_state == curr_state] compares the
    two references (definition-object identity). *)
Definition OWDLState_eq (a b : OWDLState) : bool :=
  bool_decide (state_oid a = state_oid b).

(** The workflow definition, as the driver reads it: the name of the starting
    state and the dictionary of states. *)
Record OWDLWorkflow := {
  starts_at : string;
  states : gmap string OWDLState;
}.

(** A state instance, by the four arguments [_run_state] constructs it from.
    It is a mutable object: the driver assigns its status and containers. *)
Record OWDLStateInstance := {
  owdl_state : OWDLState;
  containers : list ContainerInstance;
  status : StateStatus;
  retry_num : Z;
}.

(** The workflow instance, by the four arguments [__init__] constructs it
    from. *)
Record OWDLWorkflowInstance := {
  wi_instance_id : string;
  wi_owdl_workflow : OWDLWorkflow;
  state_instances : list OWDLStateInstance;
  wi_status : WorkflowStatus;
}.

(** ** Status model *)

(** The [for] loop of [_get_state_status], carrying [has_started]; the
    [return] inside the loop leaves it at the first FAILED container. *)
Fixpoint get_state_status_loop (has_started : bool)
    (cs : list ContainerInstance) : StateStatus :=
  match cs with
  | [] => if has_started then S_STARTED else S_COMPLETED
  | container :: rest =>
      if bool_decide (c_status container = CI_STARTED)
         || bool_decide (c_status container = CI_UNKNOWN)
      then get_state_status_loop true rest
      else if bool_decide (c_status container = CI_FAILED)
      then S_FAILED
      else get_state_status_loop has_started rest
  end.

Definition _get_state_status (cs : list ContainerInstance) : StateStatus :=
  get_state_status_loop false cs.

(** [_get_workflow_status], with the workflow's present status passed in. *)
Definition _get_workflow_status (current : WorkflowStatus) (s : StateStatus)
    : WorkflowStatus :=
  match s with
  | S_FAILED => W_FAILED
  | S_CANCELLED => W_CANCELLED
  | _ => current
  end.

Definition any_failed (cs : list ContainerInstance) : bool :=
  existsb (fun c => bool_decide (c_status c = CI_FAILED)) cs.

Definition any_running (cs : list ContainerInstance) : bool :=
  existsb (fun c => bool_decide (c_status c = CI_STARTED)
                    || bool_decide (c_status c = CI_UNKNOWN)) cs.

(** ** Exceptions and the backend *)

(** What a call of the driver can raise: the driver's own [OWDLRuntimeError]
    with its message, the [KeyError] of a dictionary subscript, and whatever
    the container backend raises, which the driver lets through. *)
Inductive exn :=
| OWDLRuntimeError (msg : string)
| KeyError (key : string)
| BackendError (msg : string).

#[global] Instance exn_eq_dec : EqDecision exn.
Proof. solve_decision. Defined.

Inductive result (A : Type) :=
| Ok (a : A)
| Raise (e : exn).
Arguments Ok {A} a.
Arguments Raise {A} e.

(** The spec's names for the driver's failures, by the [raise] they are. *)
Definition MissingRepository : exn := OWDLRuntimeError "No repo provided".
Definition InvalidArguments : exn :=
  OWDLRuntimeError "Incorrect number of args provided".
Definition RetryLimitExceeded : exn := OWDLRuntimeError "Retry limit reached".
Definition NoStateStarted : exn :=
  OWDLRuntimeError
    "Cannot get state instance of a Workflow that has not started any state instances".

(** The status guards of start, next, cancel_state and retry. *)
Definition InvalidTransition (e : exn) : bool :=
  bool_decide (e ∈ [
    OWDLRuntimeError "Invalid status while starting the Workflow";
    OWDLRuntimeError "Invalid status while attempting to run next state of Workflow";
    OWDLRuntimeError "Invalid Workflow status for cancelling State";
    OWDLRuntimeError "Invalid State status for cancelling State";
    OWDLRuntimeError "Invalid Workflow status for retry" ]).

(** The three operations of [OneDockerService] the driver calls. *)
Inductive backend_call :=
| StartContainers (definition package : string) (args_list : list string)
    (tmo : option Z)
| GetContainers (ids : list string)
| StopContainers (ids : list string).

(** The backend is an external service.  It is modelled by the calls the
    driver has made to it so far (oldest first) and by its replies, which may
    depend on those earlier calls; a reply is a value or an exception. *)
Record OneDockerService := {
  calls : list backend_call;
  reply_start : list backend_call -> string -> string -> list string ->
                option Z -> result (list ContainerInstance);
  reply_get : list backend_call -> list string ->
              result (list ContainerInstance);
  reply_stop : list backend_call -> list string -> result unit;
}.

Definition record_call (c : backend_call) (svc : OneDockerService)
    : OneDockerService :=
  {| calls := calls svc ++ [c];
     reply_start := reply_start svc;
     reply_get := reply_get svc;
     reply_stop := reply_stop svc |}.

(** The two repository operations the constructor calls. *)
Record LocalOWDLWorkflowInstanceRepository := {
  repo_read : string -> result OWDLWorkflowInstance;
  repo_create : OWDLWorkflowInstance -> result unit;
}.

(** ** The driver object and its monad *)

Record OWDLDriver := {
  onedocker : OneDockerService;
  owdl_workflow : OWDLWorkflow;
  owdl_workflow_instance : OWDLWorkflowInstance;
}.

Definition M (A : Type) : Type := OWDLDriver -> result A * OWDLDriver.

Definition ret {A} (a : A) : M A := fun d => (Ok a, d).
Definition raise {A} (e : exn) : M A := fun d => (Raise e, d).
Definition bind {A B} (m : M A) (k : A -> M B) : M B :=
  fun d =>
    match m d with
    | (Ok a, d') => k a d'
    | (Raise e, d') => (Raise e, d')
    end.
Definition self : M OWDLDriver := fun d => (Ok d, d).
Definition modify (f : OWDLDriver -> OWDLDriver) : M unit :=
  fun d => (Ok tt, f d).

Declare Scope owdl_scope.
Delimit Scope owdl_scope with owdl.
Notation "'let!' x ':=' m 'in' k" := (bind m (fun x => k))
  (at level 10, x name, m at level 100, k at level 200) : owdl_scope.
Notation "m ';;' k" := (bind m (fun _ => k))
  (at level 100, k at level 200, right associativity) : owdl_scope.
Open Scope owdl_scope.

(** *** Field updates *)

Definition with_status (s : StateStatus) (si : OWDLStateInstance)
    : OWDLStateInstance :=
  {| owdl_state := owdl_state si; containers := containers si;
     status := s; retry_num := retry_num si |}.

Definition with_containers (cs : list ContainerInstance)
    (si : OWDLStateInstance) : OWDLStateInstance :=
  {| owdl_state := owdl_state si; containers := cs;
     status := status si; retry_num := retry_num si |}.

Definition with_state_instances (l : list OWDLStateInstance)
    (w : OWDLWorkflowInstance) : OWDLWorkflowInstance :=
  {| wi_instance_id := wi_instance_id w;
     wi_owdl_workflow := wi_owdl_workflow w;
     state_instances := l; wi_status := wi_status w |}.

Definition with_wi_status (s : WorkflowStatus) (w : OWDLWorkflowInstance)
    : OWDLWorkflowInstance :=
  {| wi_instance_id := wi_instance_id w;
     wi_owdl_workflow := wi_owdl_workflow w;
     state_instances := state_instances w; wi_status := s |}.

Definition with_instance (f : OWDLWorkflowInstance -> OWDLWorkflowInstance)
    (d : OWDLDriver) : OWDLDriver :=
  {| onedocker := onedocker d; owdl_workflow := owdl_workflow d;
     owdl_workflow_instance := f (owdl_workflow_instance d) |}.

Definition with_onedocker (f : OneDockerService -> OneDockerService)
    (d : OWDLDriver) : OWDLDriver :=
  {| onedocker := f (onedocker d); owdl_workflow := owdl_workflow d;
     owdl_workflow_instance := owdl_workflow_instance d |}.

(** [state_instances[-1]] updated in place.  Each record of the list is an
    object of its own ([_run_state] constructs one per append), so an
    assignment through a reference to the last record changes that record
    and no other. *)
Definition alter_last {A} (f : A -> A) (l : list A) : list A :=
  alter f (Nat.pred (length l)) l.

(** [self.owdl_workflow_instance.status = s] *)
Definition set_workflow_status (s : WorkflowStatus) : M unit :=
  modify (with_instance (with_wi_status s)).

(** An attribute assignment on the current state instance. *)
Definition assign_current (f : OWDLStateInstance -> OWDLStateInstance)
    : M unit :=
  modify (with_instance (fun w =>
    with_state_instances (alter_last f (state_instances w)) w)).

(** ** Backend calls *)

Definition start_containers (definition package : string)
    (args_list : list string) (tmo : option Z)
    : M (list ContainerInstance) :=
  fun d =>
    (reply_start (onedocker d) (calls (onedocker d))
       definition package args_list tmo,
     with_onedocker
       (record_call (StartContainers definition package args_list tmo)) d).

Definition get_containers (ids : list string) : M (list ContainerInstance) :=
  fun d =>
    (reply_get (onedocker d) (calls (onedocker d)) ids,
     with_onedocker (record_call (GetContainers ids)) d).

Definition stop_containers (ids : list string) : M unit :=
  fun d =>
    (reply_stop (onedocker d) (calls (onedocker d)) ids,
     with_onedocker (record_call (StopContainers ids)) d).

(** ** The driver's methods *)

(** [__init__].  Without a workflow the instance is read from the repository;
    with one, a new instance is made, CREATED and with no state instance, and
    handed to the repository. *)
Definition __init__ (svc : OneDockerService)
    (repo : option LocalOWDLWorkflowInstanceRepository)
    (instance_id : string) (workflow : option OWDLWorkflow)
    : result OWDLDriver :=
  match repo with
  | None => Raise (OWDLRuntimeError "No repo provided")
  | Some repo =>
      match workflow with
      | None =>
          match repo_read repo instance_id with
          | Raise e => Raise e
          | Ok wi =>
              Ok {| onedocker := svc;
                    owdl_workflow := wi_owdl_workflow wi;
                    owdl_workflow_instance := wi |}
          end
      | Some wf =>
          let wi := {| wi_instance_id := instance_id;
                       wi_owdl_workflow := wf;
                       state_instances := [];
                       wi_status := W_CREATED |} in
          match repo_create repo wi with
          | Raise e => Raise e
          | Ok _ =>
              Ok {| onedocker := svc; owdl_workflow := wf;
                    owdl_workflow_instance := wi |}
          end
      end
  end.

Definition get_current_state_instance : M OWDLStateInstance :=
  let! d := self in
  match last (state_instances (owdl_workflow_instance d)) with
  | None =>
      raise (OWDLRuntimeError
        "Cannot get state instance of a Workflow that has not started any state instances")
  | Some si => ret si
  end.

Definition get_current_retry_num : M Z :=
  let! si := get_current_state_instance in
  ret (retry_num si).

Definition _add_next_state_instance (state_inst : OWDLStateInstance)
    : M unit :=
  modify (with_instance (fun w =>
    with_state_instances (state_instances w ++ [state_inst]) w)).

(** [sum(state_inst.owdl_state == curr_state for state_inst in ...)]: the
    booleans are added up as 1 and 0, from 0. *)
Definition _get_retry_num (curr_state : OWDLState) : M Z :=
  let! d := self in
  ret (foldl
         (fun acc state_inst =>
            acc + (if OWDLState_eq (owdl_state state_inst) curr_state
                   then 1 else 0))
         0 (state_instances (owdl_workflow_instance d))).

(** [if args:] holds for a list that is given and not empty. *)
Definition truthy (args : option (list string)) : bool :=
  match args with
  | Some (_ :: _) => true
  | _ => false
  end.

Definition _run_state (curr_state : OWDLState) (args : option (list string))
    : M unit :=
  let! cmd_args :=
    (if truthy args then
       if negb (length (default [] args) =? length (cmd_args_list curr_state))%nat
       then raise (OWDLRuntimeError "Incorrect number of args provided")
       else ret (zip_with (fun old_arg new_arg => old_arg +:+ " " +:+ new_arg)
                   (cmd_args_list curr_state) (default [] args))
     else ret (cmd_args_list curr_state)) in
  let! container_list :=
    start_containers (container_definition curr_state)
      (package_name curr_state) cmd_args (timeout curr_state) in
  let! n := _get_retry_num curr_state in
  _add_next_state_instance
    {| owdl_state := curr_state; containers := container_list;
       status := S_STARTED; retry_num := n |}.

(** [self.owdl_workflow.states[key]] *)
Definition state_at (key : string) : M OWDLState :=
  let! d := self in
  match states (owdl_workflow d) !! key with
  | Some st => ret st
  | None => raise (KeyError key)
  end.

Definition start : M unit :=
  let! d := self in
  if negb (bool_decide (wi_status (owdl_workflow_instance d) = W_CREATED))
  then raise (OWDLRuntimeError "Invalid status while starting the Workflow")
  else
    let! curr_state := state_at (starts_at (owdl_workflow d)) in
    _run_state curr_state None ;;
    let! d := self in
    if bool_decide (wi_status (owdl_workflow_instance d) = W_CREATED)
    then set_workflow_status W_STARTED
    else ret tt.

Definition next (args : option (list string)) : M unit :=
  let! curr_state_instance := get_current_state_instance in
  let curr_state := owdl_state curr_state_instance in
  let! d := self in
  if negb (bool_decide (wi_status (owdl_workflow_instance d) = W_STARTED))
     || negb (bool_decide (status curr_state_instance = S_COMPLETED))
  then raise (OWDLRuntimeError
         "Invalid status while attempting to run next state of Workflow")
  else if end_ curr_state
  then set_workflow_status W_COMPLETED
  else
    let! curr_state :=
      match next_ curr_state with
      | Some next_ => state_at next_
      | None => ret curr_state
      end in
    _run_state curr_state args.

(** [get_status].  [curr_state_instance] and the later
    [self.get_current_state_instance()] are the same object, so the
    containers the status is computed from are the ones just stored. *)
Definition get_status : M OWDLWorkflowInstance :=
  let! d := self in
  if bool_decide (wi_status (owdl_workflow_instance d) ∈ [W_CREATED; W_COMPLETED])
  then ret (owdl_workflow_instance d)
  else
    let! curr_state_instance := get_current_state_instance in
    if bool_decide (status curr_state_instance = S_CANCELLED)
    then ret (owdl_workflow_instance d)
    else
      let! cur := get_current_state_instance in
      let instance_ids := map instance_id (containers cur) in
      let! refreshed := get_containers instance_ids in
      get_current_state_instance ;;
      assign_current (with_containers refreshed) ;;
      let! curr_state_instance := get_current_state_instance in
      let st := _get_state_status (containers curr_state_instance) in
      get_current_state_instance ;;
      assign_current (with_status st) ;;
      let! d := self in
      set_workflow_status
        (_get_workflow_status (wi_status (owdl_workflow_instance d)) st) ;;
      let! d := self in
      ret (owdl_workflow_instance d).

Definition cancel_state : M unit :=
  let! d := self in
  if negb (bool_decide (wi_status (owdl_workflow_instance d) = W_STARTED))
  then raise (OWDLRuntimeError "Invalid Workflow status for cancelling State")
  else
    let! curr_state_instance := get_current_state_instance in
    if negb (bool_decide (status curr_state_instance = S_STARTED))
    then raise (OWDLRuntimeError "Invalid State status for cancelling State")
    else
      assign_current (with_status S_CANCELLED) ;;
      let instance_ids := map instance_id (containers curr_state_instance) in
      stop_containers instance_ids.

Definition retry (args : option (list string)) : M unit :=
  let! d := self in
  if bool_decide (wi_status (owdl_workflow_instance d)
                  ∈ [W_CREATED; W_CANCELLED; W_COMPLETED])
  then raise (OWDLRuntimeError "Invalid Workflow status for retry")
  else
    let! a := get_current_state_instance in
    let! b := get_current_state_instance in
    if bool_decide (retry_num a >= retry_count (owdl_state b))
    then raise (OWDLRuntimeError "Retry limit reached")
    else
      let! curr_state_instance := get_current_state_instance in
      if bool_decide (status curr_state_instance ∈ [S_FAILED; S_CANCELLED])
      then
        assign_current (with_status S_STARTED) ;;
        let curr_state := owdl_state curr_state_instance in
        _run_state curr_state args
      else ret tt.

Definition is_completed : M bool :=
  let! d := self in
  ret (bool_decide (wi_status (owdl_workflow_instance d) = W_COMPLETED)).

Definition cancel_workflow : M unit :=
  cancel_state ;;
  set_workflow_status W_CANCELLED.

(** The sequence of state instances of the driver's workflow instance. *)
Abbreviation sis d := (state_instances (owdl_workflow_instance d)).

(** ** Runs of the driver *)

(** The calls a client can make on the driver. *)
Inductive operation :=
| Start
| Next (args : option (list string))
| GetStatus
| CancelState
| Retry (args : option (list string))
| CancelWorkflow.

(** The driver as a call leaves it, whether the call returns or raises. *)
Definition perform (o : operation) (d : OWDLDriver) : OWDLDriver :=
  match o with
  | Start => snd (start d)
  | Next args => snd (next args d)
  | GetStatus => snd (get_status d)
  | CancelState => snd (cancel_state d)
  | Retry args => snd (retry args d)
  | CancelWorkflow => snd (cancel_workflow d)
  end.

(** A driver constructed for a new workflow, after any number of calls. *)
Inductive reachable : OWDLDriver -> Prop :=
| reachable_new svc repo instance_id workflow d :
    __init__ svc (Some repo) instance_id (Some workflow) = Ok d ->
    reachable d
| reachable_step o d :
    reachable d -> reachable (perform o d).

(** A run of calls, one after the other. *)
Definition perform_all (os : list operation) (d : OWDLDriver) : OWDLDriver :=
  foldl (fun d o => perform o d) d os.

(** The calls that execute no state other than by retrying it. *)
Definition retry_alone (o : operation) : bool :=
  match o with
  | Start | Next _ => false
  | GetStatus | CancelState | Retry _ | CancelWorkflow => true
  end.

(** ** The vocabulary of the specification *)

(** The spec's [aggregateStateStatus], after its wording: FAILED if any
    container is FAILED, else STARTED if any is STARTED or UNKNOWN, else
    COMPLETED. *)
Definition aggregateStateStatus (cs : list ContainerInstance) : StateStatus :=
  if any_failed cs then S_FAILED
  else if any_running cs then S_STARTED
  else S_COMPLETED.

(** The records of [l] that are attempts of the definition [st]. *)
Definition attempts (st : OWDLState) (l : list OWDLStateInstance) : nat :=
  length (filter (fun si => state_oid (owdl_state si) = state_oid st) l).

(** Every record's retry number is the number of attempts of its definition
    that precede it in the sequence. *)
Definition retry_nums_count_attempts (l : list OWDLStateInstance) : Prop :=
  forall i si, l !! i = Some si ->
    retry_num si = Z.of_nat (attempts (owdl_state si) (take i l)).

(** The argument list [_run_state] hands to the backend. *)
Definition merged_args (st : OWDLState) (args : option (list string))
    : list string :=
  if truthy args
  then zip_with (fun old_arg new_arg => old_arg +:+ " " +:+ new_arg)
         (cmd_args_list st) (default [] args)
  else cmd_args_list st.

(** [args] passes the length check of [_run_state] for [st]. *)
Definition args_fit (st : OWDLState) (args : option (list string)) : bool :=
  negb (truthy args)
  || (length (default [] args) =? length (cmd_args_list st))%nat.

(** The driver after [_run_state st args] went through with the backend
    answering [cs]. *)
Definition after_run_state (st : OWDLState) (args : option (list string))
    (cs : list ContainerInstance) (d : OWDLDriver) : OWDLDriver :=
  with_instance
    (fun w =>
       with_state_instances
         (state_instances w ++
            [{| owdl_state := st; containers := cs; status := S_STARTED;
                retry_num := Z.of_nat (attempts st (state_instances w)) |}])
         w)
    (with_onedocker
       (record_call
          (StartContainers (container_definition st) (package_name st)
             (merged_args st args) (timeout st)))
       d).

(** How a call may change the sequence of state instances: a record is
    appended by [_run_state], with the retry number it computes there, or the
    last record has an attribute other than its definition and retry number
    assigned. *)
Inductive evolves : list OWDLStateInstance -> list OWDLStateInstance -> Prop :=
| evolves_refl l : evolves l l
| evolves_assign f l l' :
    evolves l l' ->
    (forall si, owdl_state (f si) = owdl_state si
                /\ retry_num (f si) = retry_num si) ->
    evolves l (alter_last f l')
| evolves_append st cs l l' :
    evolves l l' ->
    evolves l (l' ++ [{| owdl_state := st; containers := cs;
                         status := S_STARTED;
                         retry_num := Z.of_nat (attempts st l') |}]).

(** The driver once [retry] has assigned STARTED to the current state
    instance, before it executes the state. *)
Definition current_restarted (d : OWDLDriver) : OWDLDriver :=
  with_instance
    (fun w =>
       with_state_instances
         (alter_last (with_status S_STARTED) (state_instances w)) w)
    d.

(** A computation changes the sequence of state instances only as [evolves]
    allows. *)
Definition M_evolves {A} (m : M A) : Prop :=
  forall d, evolves (sis d) (sis (snd (m d))).

(** ** A two-state workflow to run the model on *)

Module Sample.

Definition A : OWDLState :=
  {| state_oid := 1%positive; container_definition := "pce";
     package_name := "compute"; cmd_args_list := ["--input=a"];
     timeout := Some 60; retry_count := 1; next_ := Some "B";
     end_ := false |}.

Definition B : OWDLState :=
  {| state_oid := 2%positive; container_definition := "pce";
     package_name := "aggregate"; cmd_args_list := ["--input=b"];
     timeout := None; retry_count := 0; next_ := None; end_ := true |}.

Definition workflow : OWDLWorkflow :=
  {| starts_at := "A"; states := <["A" := A]> (<["B" := B]> ∅) |}.

(** A state that neither ends the workflow nor names a next state. *)
Definition L : OWDLState :=
  {| state_oid := 3%positive; container_definition := "pce";
     package_name := "poll"; cmd_args_list := [];
     timeout := None; retry_count := 0; next_ := None; end_ := false |}.

Definition looping : OWDLWorkflow :=
  {| starts_at := "L"; states := <["L" := L]> ∅ |}.

(** A backend that starts one container per call and reports every
    container it is asked about as [st]. *)
Definition backend (st : ContainerInstanceStatus) : OneDockerService :=
  {| calls := [];
     reply_start := fun _ _ _ _ _ =>
       Ok [{| instance_id := "c"; c_status := CI_STARTED |}];
     reply_get := fun _ ids =>
       Ok (map (fun i => {| instance_id := i; c_status := st |}) ids);
     reply_stop := fun _ _ => Ok tt |}.

Definition repo : LocalOWDLWorkflowInstanceRepository :=
  {| repo_read := fun _ => Raise (KeyError "run");
     repo_create := fun _ => Ok tt |}.

(** The driver of a new run of [wf]. *)
Definition fresh (wf : OWDLWorkflow) (st : ContainerInstanceStatus)
    : OWDLDriver :=
  {| onedocker := backend st; owdl_workflow := wf;
     owdl_workflow_instance :=
       {| wi_instance_id := "run"; wi_owdl_workflow := wf;
          state_instances := []; wi_status := W_CREATED |} |}.

(** State A started. *)
Definition started_A : OWDLDriver :=
  perform Start (fresh workflow CI_STARTED).

(** State A started, then seen FAILED by a status query. *)
Definition failed_A : OWDLDriver :=
  perform GetStatus (perform Start (fresh workflow CI_FAILED)).

(** ... and retried. *)
Definition retried_A : OWDLDriver := perform (Retry None) failed_A.

(** The attempt of A that the retry appended. *)
Definition second_A : OWDLStateInstance :=
  {| owdl_state := A;
     containers := [{| instance_id := "c"; c_status := CI_STARTED |}];
     status := S_STARTED; retry_num := 1 |}.

(** The attempt of A that failed. *)
Definition first_A : OWDLStateInstance :=
  {| owdl_state := A;
     containers := [{| instance_id := "c"; c_status := CI_FAILED |}];
     status := S_FAILED; retry_num := 0 |}.

(** A and then B run to completion; the workflow is not yet closed. *)
Definition completed_B : OWDLDriver :=
  perform GetStatus
    (perform (Next None)
       (perform GetStatus (perform Start (fresh workflow CI_COMPLETED)))).

Definition done_B : OWDLStateInstance :=
  {| owdl_state := B;
     containers := [{| instance_id := "c"; c_status := CI_COMPLETED |}];
     status := S_COMPLETED; retry_num := 0 |}.

(** L run to completion. *)
Definition completed_L : OWDLDriver :=
  perform GetStatus (perform Start (fresh looping CI_COMPLETED)).

Definition done_L : OWDLStateInstance :=
  {| owdl_state := L;
     containers := [{| instance_id := "c"; c_status := CI_COMPLETED |}];
     status := S_COMPLETED; retry_num := 0 |}.

End Sample.

(** ** The calls as transitions of the driver *)

(** The driver with the backend call [c] added to the log. *)
Definition logged (c : backend_call) (d : OWDLDriver) : OWDLDriver :=
  with_onedocker (record_call c) d.

(** The call [_run_state st args] makes to the backend. *)
Definition start_call (st : OWDLState) (args : option (list string))
    : backend_call :=
  StartContainers (container_definition st) (package_name st)
    (merged_args st args) (timeout st).

(** [[container.instance_id for container in si.containers]] *)
Definition container_ids (si : OWDLStateInstance) : list string :=
  map instance_id (containers si).

(** The driver once [cancel_state] has assigned CANCELLED to the current
    state instance. *)
Definition current_cancelled (d : OWDLDriver) : OWDLDriver :=
  with_instance
    (fun w =>
       with_state_instances
         (alter_last (with_status S_CANCELLED) (state_instances w)) w)
    d.

(** The driver once [get_status] has stored the containers [cs] and the
    status computed from them on the current state instance, and the status
    derived from that on the workflow instance. *)
Definition refreshed (cs : list ContainerInstance) (d : OWDLDriver)
    : OWDLDriver :=
  with_instance
    (fun w =>
       with_wi_status
         (_get_workflow_status (wi_status w) (_get_state_status cs))
         (with_state_instances
            (alter_last (with_status (_get_state_status cs))
               (alter_last (with_containers cs) (state_instances w)))
            w))
    d.

(** The state [next] executes after the state instance [si]: the one its
    definition names, looked up in the workflow, or the same definition when
    it names none. *)
Definition resolves (d : OWDLDriver) (si : OWDLStateInstance)
    (st : OWDLState) : Prop :=
  match next_ (owdl_state si) with
  | None => st = owdl_state si
  | Some key => states (owdl_workflow d) !! key = Some st
  end.

(** What a call can do to the driver, by the paths through the methods.  A
    call that fails a guard, finds no state, is given arguments that do not
    fit (outside [retry]) or has nothing to do leaves the driver as it was
    ([tr_same]); the other constructors are the paths that change it. *)
Inductive transition : operation -> OWDLDriver -> OWDLDriver -> Prop :=
| tr_same o d :
    transition o d d
| tr_start_raises d st :
    wi_status (owdl_workflow_instance d) = W_CREATED ->
    states (owdl_workflow d) !! starts_at (owdl_workflow d) = Some st ->
    transition Start d (logged (start_call st None) d)
| tr_start d st cs :
    wi_status (owdl_workflow_instance d) = W_CREATED ->
    states (owdl_workflow d) !! starts_at (owdl_workflow d) = Some st ->
    transition Start d
      (with_instance (with_wi_status W_STARTED) (after_run_state st None cs d))
| tr_next_end args d si :
    wi_status (owdl_workflow_instance d) = W_STARTED ->
    last (sis d) = Some si ->
    status si = S_COMPLETED ->
    end_ (owdl_state si) = true ->
    transition (Next args) d (with_instance (with_wi_status W_COMPLETED) d)
| tr_next_raises args d si st :
    wi_status (owdl_workflow_instance d) = W_STARTED ->
    last (sis d) = Some si ->
    status si = S_COMPLETED ->
    end_ (owdl_state si) = false ->
    resolves d si st ->
    transition (Next args) d (logged (start_call st args) d)
| tr_next args d si st cs :
    wi_status (owdl_workflow_instance d) = W_STARTED ->
    last (sis d) = Some si ->
    status si = S_COMPLETED ->
    end_ (owdl_state si) = false ->
    resolves d si st ->
    transition (Next args) d (after_run_state st args cs d)
| tr_get_raises d si :
    wi_status (owdl_workflow_instance d) ∉ [W_CREATED; W_COMPLETED] ->
    last (sis d) = Some si ->
    status si <> S_CANCELLED ->
    transition GetStatus d (logged (GetContainers (container_ids si)) d)
| tr_get d si cs :
    wi_status (owdl_workflow_instance d) ∉ [W_CREATED; W_COMPLETED] ->
    last (sis d) = Some si ->
    status si <> S_CANCELLED ->
    transition GetStatus d
      (refreshed cs (logged (GetContainers (container_ids si)) d))
| tr_cancel_state o d si :
    o = CancelState \/ o = CancelWorkflow ->
    wi_status (owdl_workflow_instance d) = W_STARTED ->
    last (sis d) = Some si ->
    status si = S_STARTED ->
    transition o d
      (logged (StopContainers (container_ids si)) (current_cancelled d))
| tr_cancel_workflow d si :
    wi_status (owdl_workflow_instance d) = W_STARTED ->
    last (sis d) = Some si ->
    status si = S_STARTED ->
    transition CancelWorkflow d
      (with_instance (with_wi_status W_CANCELLED)
         (logged (StopContainers (container_ids si)) (current_cancelled d)))
| tr_retry_restarted args d si :
    wi_status (owdl_workflow_instance d)
      ∉ [W_CREATED; W_CANCELLED; W_COMPLETED] ->
    last (sis d) = Some si ->
    retry_num si < retry_count (owdl_state si) ->
    status si ∈ [S_FAILED; S_CANCELLED] ->
    transition (Retry args) d (current_restarted d)
| tr_retry_raises args d si :
    wi_status (owdl_workflow_instance d)
      ∉ [W_CREATED; W_CANCELLED; W_COMPLETED] ->
    last (sis d) = Some si ->
    retry_num si < retry_count (owdl_state si) ->
    status si ∈ [S_FAILED; S_CANCELLED] ->
    transition (Retry args) d
      (logged (start_call (owdl_state si) args) (current_restarted d))
| tr_retry args d si cs :
    wi_status (owdl_workflow_instance d)
      ∉ [W_CREATED; W_CANCELLED; W_COMPLETED] ->
    last (sis d) = Some si ->
    retry_num si < retry_count (owdl_state si) ->
    status si ∈ [S_FAILED; S_CANCELLED] ->
    transition (Retry args) d
      (after_run_state (owdl_state si) args cs (current_restarted d)).

(** ** More runs of the sample workflows *)

Module Scenario.

(** A backend that is down: every call raises. *)
Definition down : OneDockerService :=
  {| calls := [];
     reply_start := fun _ _ _ _ _ => Raise (BackendError "down");
     reply_get := fun _ _ => Raise (BackendError "down");
     reply_stop := fun _ _ => Raise (BackendError "down") |}.

(** The driver [d] talking to the backend [svc] from now on. *)
Definition on_backend (svc : OneDockerService) (d : OWDLDriver) : OWDLDriver :=
  with_onedocker (fun _ => svc) d.

(** A workflow whose starting state is not among its states. *)
Definition headless : OWDLWorkflow :=
  {| starts_at := "Z"; states := <["A" := Sample.A]> ∅ |}.

(** A workflow whose state A names a next state, B, that it does not have. *)
Definition dangling : OWDLWorkflow :=
  {| starts_at := "A"; states := <["A" := Sample.A]> ∅ |}.

Definition container (st : ContainerInstanceStatus) : ContainerInstance :=
  {| instance_id := "c"; c_status := st |}.

(** An attempt of [st] as [_run_state] records it on the sample backend. *)
Definition attempt (st : OWDLState) (n : Z) : OWDLStateInstance :=
  {| owdl_state := st; containers := [container CI_STARTED];
     status := S_STARTED; retry_num := n |}.

(** State A run to completion. *)
Definition completed_A (wf : OWDLWorkflow) : OWDLDriver :=
  perform GetStatus (perform Start (Sample.fresh wf CI_COMPLETED)).

Definition done_A : OWDLStateInstance :=
  {| owdl_state := Sample.A; containers := [container CI_COMPLETED];
     status := S_COMPLETED; retry_num := 0 |}.

(** State A started and then cancelled, the workflow still STARTED. *)
Definition cancelled_A : OWDLDriver := perform CancelState Sample.started_A.

(** The whole workflow cancelled while A was running. *)
Definition cancelled : OWDLDriver := perform CancelWorkflow Sample.started_A.

(** The workflow closed by [next] after B completed. *)
Definition closed : OWDLDriver := perform (Next None) Sample.completed_B.

End Scenario.

(** ** What holds of every reachable driver *)

(** The shape of a run that started from a new workflow instance. *)
Record well_formed (d : OWDLDriver) : Prop := {
  wf_created :
    wi_status (owdl_workflow_instance d) = W_CREATED <-> sis d = [];
  wf_cancelled :
    wi_status (owdl_workflow_instance d) = W_CANCELLED ->
    exists si, last (sis d) = Some si /\ status si = S_CANCELLED;
  wf_completed :
    wi_status (owdl_workflow_instance d) = W_COMPLETED ->
    exists si, last (sis d) = Some si /\ status si = S_COMPLETED
               /\ end_ (owdl_state si) = true;
  wf_states :
    forall si, si ∈ sis d ->
      exists key, states (owdl_workflow d) !! key = Some (owdl_state si);
  wf_superseded :
    forall i si, sis d !! i = Some si -> (S i < length (sis d))%nat ->
      status si = S_STARTED \/ status si = S_COMPLETED;
  wf_failed :
    forall si, last (sis d) = Some si -> status si = S_FAILED ->
      wi_status (owdl_workflow_instance d) = W_FAILED;
}.

(** The backend operation each method calls. *)
Definition backend_call_of (o : operation) (c : backend_call) : bool :=
  match o, c with
  | (Start | Next _ | Retry _), StartContainers _ _ _ _ => true
  | GetStatus, GetContainers _ => true
  | (CancelState | CancelWorkflow), StopContainers _ => true
  | _, _ => false
  end.

(** The worse of two state statuses as [_get_state_status] ranks them:
    FAILED over STARTED over COMPLETED. *)
Definition worse (a b : StateStatus) : StateStatus :=
  match a, b with
  | S_FAILED, _ | _, S_FAILED => S_FAILED
  | S_STARTED, _ | _, S_STARTED => S_STARTED
  | _, _ => b
  end.

(** * Properties *)

(** ** Status aggregation *)

Section Aggregation.

Implicit Types (cs : list ContainerInstance) (c : ContainerInstance).

Lemma get_state_status_loop_spec cs : forall has_started,
  get_state_status_loop has_started cs =
    if any_failed cs then S_FAILED
    else if has_started || any_running cs then S_STARTED
    else S_COMPLETED.
Proof.
  induction cs as [|c rest IH]; intros hs; simpl.
  - by rewrite orb_false_r.
  - rewrite !IH. destruct c as [i []]; simpl;
      destruct (any_failed rest), (any_running rest), hs; reflexivity.
Qed.

Lemma existsb_Permutation (f : ContainerInstance -> bool) cs cs' :
  cs ≡ₚ cs' -> existsb f cs = existsb f cs'.
Proof.
  induction 1 as [|x l l' _ IH|x y l|l l' l'' _ IH1 _ IH2]; simpl.
  - reflexivity.
  - by rewrite IH.
  - by rewrite !orb_assoc, (orb_comm (f y)).
  - by rewrite IH1.
Qed.

Lemma any_failed_elem cs c :
  c ∈ cs -> c_status c = CI_FAILED -> any_failed cs = true.
Proof.
  intros Hin Hc. unfold any_failed. apply existsb_exists.
  exists c. split; [by apply list_elem_of_In | by rewrite Hc].
Qed.

End Aggregation.

(** C4: [_get_state_status] is the spec's [aggregateStateStatus] (FAILED if
    any container is FAILED, else STARTED if any is STARTED or UNKNOWN, else
    COMPLETED); so it gives the same status on every permutation of the list,
    and a single FAILED container makes the status FAILED whatever the other
    containers are. *)
Theorem get_state_status_aggregates (cs : list ContainerInstance) :
  _get_state_status cs = aggregateStateStatus cs
  /\ (forall cs', cs ≡ₚ cs' -> _get_state_status cs' = _get_state_status cs)
  /\ (forall c, c ∈ cs -> c_status c = CI_FAILED ->
        _get_state_status cs = S_FAILED).
Proof.
  assert (Hspec : forall l, _get_state_status l = aggregateStateStatus l).
  { intros l. unfold _get_state_status. by rewrite get_state_status_loop_spec. }
  split; [apply Hspec|]. split.
  - intros cs' Hp. rewrite !Hspec. unfold aggregateStateStatus, any_failed, any_running.
    by rewrite !(existsb_Permutation _ _ _ Hp).
  - intros c Hin Hc. rewrite Hspec. unfold aggregateStateStatus.
    by rewrite (any_failed_elem _ _ Hin Hc).
Qed.

(** The spec's three cases, read off [aggregateStateStatus]. *)
Lemma aggregateStateStatus_cases (cs : list ContainerInstance) :
  ((exists c, c ∈ cs /\ c_status c = CI_FAILED) ->
     aggregateStateStatus cs = S_FAILED)
  /\ ((forall c, c ∈ cs -> c_status c <> CI_FAILED) ->
      (exists c, c ∈ cs /\ (c_status c = CI_STARTED \/ c_status c = CI_UNKNOWN)) ->
      aggregateStateStatus cs = S_STARTED)
  /\ ((forall c, c ∈ cs -> c_status c = CI_COMPLETED) ->
      aggregateStateStatus cs = S_COMPLETED).
Proof.
  unfold aggregateStateStatus.
  assert (Hnf : (forall c, c ∈ cs -> c_status c <> CI_FAILED) ->
                any_failed cs = false).
  { intros H. apply not_true_is_false. intros Hf.
    apply existsb_exists in Hf as (c & Hin & Hc).
    apply (H c); [by apply list_elem_of_In | by apply bool_decide_eq_true in Hc]. }
  split; [|split].
  - intros (c & Hin & Hc). by rewrite (any_failed_elem _ _ Hin Hc).
  - intros Hno (c & Hin & Hc). rewrite (Hnf Hno).
    assert (any_running cs = true) as ->; [|done].
    apply existsb_exists. exists c. split; [by apply list_elem_of_In|].
    destruct Hc as [-> | ->]; reflexivity.
  - intros Hall. rewrite Hnf by (intros c Hin; rewrite (Hall c Hin); done).
    assert (any_running cs = false) as ->; [|done].
    apply not_true_is_false. intros Hr.
    apply existsb_exists in Hr as (c & Hin & Hc).
    apply list_elem_of_In in Hin. rewrite (Hall c Hin) in Hc. discriminate.
Qed.

Lemma get_state_status_aggregates_witness :
  let failed := {| instance_id := "c2"; c_status := CI_FAILED |} in
  let cs := [ {| instance_id := "c1"; c_status := CI_COMPLETED |}; failed;
              {| instance_id := "c3"; c_status := CI_STARTED |} ] in
  failed ∈ cs /\ c_status failed = CI_FAILED
  /\ _get_state_status cs = S_FAILED.
Proof.
  intros failed cs. split; [|split].
  - apply list_elem_of_In. simpl. auto.
  - reflexivity.
  - apply (proj2 (proj2 (get_state_status_aggregates cs)) failed).
    + apply list_elem_of_In. simpl. auto.
    + reflexivity.
Defined.

(** C10: on an empty container list [_get_state_status] returns COMPLETED. *)
Theorem get_state_status_empty : _get_state_status [] = S_COMPLETED.
Proof. reflexivity. Qed.

(** ** Lists of state instances *)

Section Sequence.

Implicit Types (l : list OWDLStateInstance) (si : OWDLStateInstance)
  (st : OWDLState).

Lemma alter_last_snoc {A} (f : A -> A) (l : list A) (x : A) :
  alter_last f (l ++ [x]) = l ++ [f x].
Proof.
  unfold alter_last. rewrite length_app, Nat.add_1_r. simpl.
  induction l as [|y l IH]; [reflexivity|].
  simpl. destruct l; simpl in *; [reflexivity | by rewrite IH].
Qed.

Lemma alter_last_nil {A} (f : A -> A) : alter_last f [] = [].
Proof. reflexivity. Qed.

Lemma alter_last_length {A} (f : A -> A) (l : list A) :
  length (alter_last f l) = length l.
Proof. apply length_alter. Qed.

Lemma last_snoc_inv {A} (l : list A) (x : A) :
  last l = Some x -> exists pre, l = pre ++ [x].
Proof. intros H. by apply last_Some in H. Qed.

Lemma attempts_app st l1 l2 :
  attempts st (l1 ++ l2) = (attempts st l1 + attempts st l2)%nat.
Proof. unfold attempts. by rewrite filter_app, length_app. Qed.

Lemma attempts_one st si :
  attempts st [si] = if OWDLState_eq (owdl_state si) st then 1%nat else 0%nat.
Proof.
  unfold attempts, OWDLState_eq. rewrite filter_cons, filter_nil.
  case_decide.
  - by rewrite bool_decide_eq_true_2.
  - by rewrite bool_decide_eq_false_2.
Qed.

(** The sum [_get_retry_num] computes is the number of attempts. *)
Lemma retry_num_sum st l : forall acc,
  foldl (fun acc state_inst =>
           acc + (if OWDLState_eq (owdl_state state_inst) st then 1 else 0))
        acc l
  = acc + Z.of_nat (attempts st l).
Proof.
  induction l as [|si l IH]; intros acc; simpl.
  - unfold attempts. simpl. lia.
  - rewrite IH. change (si :: l) with ([si] ++ l).
    rewrite attempts_app, attempts_one.
    destruct (OWDLState_eq (owdl_state si) st); lia.
Qed.

Lemma retry_nums_snoc l si :
  retry_nums_count_attempts (l ++ [si]) <->
  retry_nums_count_attempts l
  /\ retry_num si = Z.of_nat (attempts (owdl_state si) l).
Proof.
  unfold retry_nums_count_attempts. split.
  - intros H. split.
    + intros i x Hi. pose proof (lookup_lt_Some _ _ _ Hi) as Hlt.
      rewrite (H i x) by (by rewrite lookup_app_l).
      by rewrite take_app_le by lia.
    + rewrite (H (length l) si).
      * by rewrite take_app_length.
      * by rewrite list_lookup_middle.
  - intros [Hl Hsi] i x Hi.
    destruct (decide (i < length l)%nat) as [Hlt|Hge].
    + rewrite lookup_app_l in Hi by done.
      rewrite take_app_le by lia. by apply Hl.
    + rewrite lookup_app_r in Hi by lia.
      destruct (i - length l)%nat as [|k] eqn:Hk; simpl in Hi; [|done].
      injection Hi as <-. assert (i = length l) as -> by lia.
      by rewrite take_app_length.
Qed.

End Sequence.

Lemma evolves_trans l1 l2 l3 :
  evolves l1 l2 -> evolves l2 l3 -> evolves l1 l3.
Proof.
  intros H12 H23. induction H23; eauto using evolves.
Qed.

Lemma evolves_retry_nums l l' :
  evolves l l' -> retry_nums_count_attempts l -> retry_nums_count_attempts l'.
Proof.
  induction 1 as [|f l l' _ IH Hf|st cs l l' _ IH]; intros Hl; [done| |].
  - specialize (IH Hl). destruct l' as [|x l' _] using rev_ind; [done|].
    rewrite alter_last_snoc. apply retry_nums_snoc in IH as [IH1 IH2].
    apply retry_nums_snoc. destruct (Hf x) as [-> ->]. done.
  - apply retry_nums_snoc. split; [by apply IH | done].
Qed.

Lemma evolves_length l l' : evolves l l' -> (length l <= length l')%nat.
Proof.
  induction 1; [done| |].
  - by rewrite alter_last_length.
  - rewrite length_app. simpl. lia.
Qed.

(** ** State execution *)

Ltac unfold_driver :=
  unfold cancel_workflow, cancel_state, retry, next, start, get_status,
    get_current_retry_num, is_completed, _run_state, state_at,
    get_current_state_instance, _get_retry_num, _add_next_state_instance,
    assign_current, set_workflow_status, start_containers, stop_containers,
    get_containers, bind, ret, raise, self, modify.

Section Run_state.

Variables (st : OWDLState) (args : option (list string)) (d : OWDLDriver).

Lemma run_state_bad_args :
  truthy args = true ->
  length (default [] args) <> length (cmd_args_list st) ->
  _run_state st args d = (Raise InvalidArguments, d).
Proof.
  intros Ht Hlen. unfold_driver. rewrite Ht.
  apply Nat.eqb_neq in Hlen. by rewrite Hlen.
Qed.

Lemma run_state_ok cs :
  args_fit st args = true ->
  reply_start (onedocker d) (calls (onedocker d)) (container_definition st)
    (package_name st) (merged_args st args) (timeout st) = Ok cs ->
  _run_state st args d = (Ok tt, after_run_state st args cs d).
Proof.
  unfold args_fit. intros Hfit Hreply. unfold_driver.
  unfold after_run_state, with_instance, with_state_instances.
  unfold merged_args in *.
  destruct (truthy args); simpl in *.
  - rewrite Hfit. simpl. rewrite Hreply. simpl.
    by rewrite retry_num_sum, Z.add_0_l.
  - rewrite Hreply. simpl.
    by rewrite retry_num_sum, Z.add_0_l.
Qed.

Lemma run_state_backend_raises e :
  args_fit st args = true ->
  reply_start (onedocker d) (calls (onedocker d)) (container_definition st)
    (package_name st) (merged_args st args) (timeout st) = Raise e ->
  _run_state st args d =
    (Raise e,
     with_onedocker
       (record_call
          (StartContainers (container_definition st) (package_name st)
             (merged_args st args) (timeout st))) d).
Proof.
  unfold args_fit, merged_args. intros Hfit Hreply. unfold_driver.
  destruct (truthy args); simpl in *.
  - rewrite Hfit. simpl. by rewrite Hreply.
  - by rewrite Hreply.
Qed.

(** The three ways [_run_state] can end. *)
Lemma run_state_cases :
  _run_state st args d = (Raise InvalidArguments, d)
  \/ (exists e,
        _run_state st args d =
          (Raise e,
           with_onedocker
             (record_call
                (StartContainers (container_definition st) (package_name st)
                   (merged_args st args) (timeout st))) d))
  \/ (exists cs, _run_state st args d = (Ok tt, after_run_state st args cs d)).
Proof.
  destruct (args_fit st args) eqn:Hfit.
  - destruct (reply_start (onedocker d) (calls (onedocker d))
                (container_definition st) (package_name st)
                (merged_args st args) (timeout st)) as [cs|e] eqn:Hreply.
    + right; right. exists cs. by apply run_state_ok.
    + right; left. exists e. by apply run_state_backend_raises.
  - left. unfold args_fit in Hfit. apply orb_false_iff in Hfit as [Ht Hlen].
    apply negb_false_iff in Ht. apply Nat.eqb_neq in Hlen.
    by apply run_state_bad_args.
Qed.

Lemma run_state_evolves :
  evolves (sis d) (sis (snd (_run_state st args d))).
Proof.
  destruct run_state_cases as [-> | [[e ->] | [cs ->]]]; simpl;
    eauto using evolves.
Qed.

End Run_state.

(** ** next *)

Section Next.

Variables (d : OWDLDriver) (args : option (list string)).

Lemma next_no_state_instance :
  last (sis d) = None -> next args d = (Raise NoStateStarted, d).
Proof. intros Hlast. unfold_driver. simpl. by rewrite Hlast. Qed.

Lemma next_guard si :
  last (sis d) = Some si ->
  wi_status (owdl_workflow_instance d) <> W_STARTED
  \/ status si <> S_COMPLETED ->
  next args d =
    (Raise (OWDLRuntimeError
       "Invalid status while attempting to run next state of Workflow"), d).
Proof.
  intros Hlast Hguard. unfold_driver. simpl. rewrite Hlast. simpl.
  destruct Hguard as [H|H].
  - by rewrite (bool_decide_eq_false_2 _ H).
  - rewrite (bool_decide_eq_false_2 _ H). simpl. by rewrite orb_true_r.
Qed.

Lemma next_end si :
  wi_status (owdl_workflow_instance d) = W_STARTED ->
  last (sis d) = Some si ->
  status si = S_COMPLETED ->
  end_ (owdl_state si) = true ->
  next args d = (Ok tt, with_instance (with_wi_status W_COMPLETED) d).
Proof.
  intros Hw Hlast Hs He. unfold_driver. simpl. rewrite Hlast. simpl.
  rewrite (bool_decide_eq_true_2 _ Hw), (bool_decide_eq_true_2 _ Hs). simpl.
  by rewrite He.
Qed.

(** Past its guards, [next] is the execution of the state it resolved. *)
Lemma next_runs si :
  wi_status (owdl_workflow_instance d) = W_STARTED ->
  last (sis d) = Some si ->
  status si = S_COMPLETED ->
  end_ (owdl_state si) = false ->
  next args d =
    match next_ (owdl_state si) with
    | None => _run_state (owdl_state si) args d
    | Some key =>
        match states (owdl_workflow d) !! key with
        | Some st => _run_state st args d
        | None => (Raise (KeyError key), d)
        end
    end.
Proof.
  intros Hw Hlast Hs He.
  unfold next, get_current_state_instance, state_at, bind, ret, raise, self.
  simpl. rewrite Hlast. simpl.
  rewrite (bool_decide_eq_true_2 _ Hw), (bool_decide_eq_true_2 _ Hs). simpl.
  rewrite He. destruct (next_ (owdl_state si)) as [key|]; [|done].
  by destruct (states (owdl_workflow d) !! key).
Qed.

End Next.

(** C6, as the driver has it: on an instance that has a state instance and
    whose status is not STARTED, or whose last state instance is not
    COMPLETED, [next] fails with InvalidTransition and leaves the driver as
    it was (nothing appended, no status changed, no backend call); on an
    instance with no state instance yet it fails with NoStateStarted, again
    leaving the driver as it was. *)
Theorem next_refused (d : OWDLDriver) (args : option (list string)) :
  (forall si,
     last (sis d) = Some si ->
     wi_status (owdl_workflow_instance d) <> W_STARTED
     \/ status si <> S_COMPLETED ->
     exists e, InvalidTransition e = true /\ next args d = (Raise e, d))
  /\ (last (sis d) = None -> next args d = (Raise NoStateStarted, d)).
Proof.
  split.
  - intros si Hlast Hguard. eexists. split; [|by eapply next_guard].
    reflexivity.
  - apply next_no_state_instance.
Qed.

(** C7: on a STARTED workflow whose last state instance is COMPLETED and
    whose definition is flagged [end], [next] returns with the workflow
    status COMPLETED, the sequence of state instances as it was, and no call
    to the backend. *)
Theorem next_on_terminal_state (d : OWDLDriver) (args : option (list string))
    (si : OWDLStateInstance) :
  wi_status (owdl_workflow_instance d) = W_STARTED ->
  last (sis d) = Some si ->
  status si = S_COMPLETED ->
  end_ (owdl_state si) = true ->
  fst (next args d) = Ok tt
  /\ wi_status (owdl_workflow_instance (snd (next args d))) = W_COMPLETED
  /\ sis (snd (next args d)) = sis d
  /\ onedocker (snd (next args d)) = onedocker d.
Proof.
  intros Hw Hlast Hs He. by rewrite (next_end d args si).
Qed.

(** C9: on a STARTED workflow whose last state instance is COMPLETED and
    whose definition is neither flagged [end] nor names a next state, [next]
    is the execution of that same definition: with arguments that fit and a
    backend that starts the containers, it returns and has appended a STARTED
    state instance of the definition. *)
Theorem next_without_next_state (d : OWDLDriver) (args : option (list string))
    (si : OWDLStateInstance) (cs : list ContainerInstance) :
  wi_status (owdl_workflow_instance d) = W_STARTED ->
  last (sis d) = Some si ->
  status si = S_COMPLETED ->
  end_ (owdl_state si) = false ->
  next_ (owdl_state si) = None ->
  args_fit (owdl_state si) args = true ->
  reply_start (onedocker d) (calls (onedocker d))
    (container_definition (owdl_state si)) (package_name (owdl_state si))
    (merged_args (owdl_state si) args) (timeout (owdl_state si)) = Ok cs ->
  next args d = _run_state (owdl_state si) args d
  /\ fst (next args d) = Ok tt
  /\ sis (snd (next args d)) =
       sis d ++ [{| owdl_state := owdl_state si; containers := cs;
                    status := S_STARTED;
                    retry_num :=
                      Z.of_nat (attempts (owdl_state si) (sis d)) |}].
Proof.
  intros Hw Hlast Hs He Hn Hfit Hreply.
  rewrite (next_runs d args si Hw Hlast Hs He), Hn.
  by rewrite (run_state_ok _ _ _ cs).
Qed.

(** ** What every call does to the sequence of state instances *)

Section Evolution.

Lemma bind_evolves {A B} (m : M A) (k : A -> M B) :
  M_evolves m -> (forall a, M_evolves (k a)) -> M_evolves (bind m k).
Proof.
  intros Hm Hk d. unfold bind. specialize (Hm d).
  destruct (m d) as [[a|e] d1]; simpl in *; [|done].
  eapply evolves_trans; [exact Hm | apply Hk].
Qed.

Lemma ret_evolves {A} (a : A) : M_evolves (ret a).
Proof. intros d. constructor. Qed.

Lemma raise_evolves {A} (e : exn) : M_evolves (@raise A e).
Proof. intros d. constructor. Qed.

Lemma self_evolves : M_evolves self.
Proof. intros d. constructor. Qed.

Lemma set_workflow_status_evolves s : M_evolves (set_workflow_status s).
Proof. intros d. constructor. Qed.

Lemma start_containers_evolves a b c t : M_evolves (start_containers a b c t).
Proof. intros d. constructor. Qed.

Lemma get_containers_evolves ids : M_evolves (get_containers ids).
Proof. intros d. constructor. Qed.

Lemma stop_containers_evolves ids : M_evolves (stop_containers ids).
Proof. intros d. constructor. Qed.

Lemma assign_status_evolves s : M_evolves (assign_current (with_status s)).
Proof. intros d. simpl. by apply evolves_assign; [constructor|]. Qed.

Lemma assign_containers_evolves cs :
  M_evolves (assign_current (with_containers cs)).
Proof. intros d. simpl. by apply evolves_assign; [constructor|]. Qed.

Lemma run_state_M_evolves st args : M_evolves (_run_state st args).
Proof. intros d. apply run_state_evolves. Qed.

End Evolution.

Ltac evolve_step :=
  lazymatch goal with
  | |- M_evolves (bind _ _) => apply bind_evolves; [|intros ?]
  | |- M_evolves (ret _) => apply ret_evolves
  | |- M_evolves (raise _) => apply raise_evolves
  | |- M_evolves self => apply self_evolves
  | |- M_evolves (set_workflow_status _) => apply set_workflow_status_evolves
  | |- M_evolves (get_containers _) => apply get_containers_evolves
  | |- M_evolves (stop_containers _) => apply stop_containers_evolves
  | |- M_evolves (assign_current (with_status _)) =>
      apply assign_status_evolves
  | |- M_evolves (assign_current (with_containers _)) =>
      apply assign_containers_evolves
  | |- M_evolves (_run_state _ _) => apply run_state_M_evolves
  | |- M_evolves (if ?b then _ else _) => destruct b
  | |- M_evolves (match ?x with _ => _ end) => destruct x
  | |- M_evolves _ => progress cbv zeta
  end.

Ltac evolve :=
  unfold cancel_workflow, cancel_state, retry, next, start, get_status,
    state_at, get_current_state_instance;
  repeat evolve_step.

Lemma perform_evolves (o : operation) (d : OWDLDriver) :
  evolves (sis d) (sis (perform o d)).
Proof.
  revert d. destruct o; simpl; intros d.
  - assert (M_evolves start) as H by evolve. apply H.
  - assert (M_evolves (next args)) as H by evolve. apply H.
  - assert (M_evolves get_status) as H by evolve. apply H.
  - assert (M_evolves cancel_state) as H by evolve. apply H.
  - assert (M_evolves (retry args)) as H by evolve. apply H.
  - assert (M_evolves cancel_workflow) as H by evolve. apply H.
Qed.

Lemma reachable_retry_nums (d : OWDLDriver) :
  reachable d -> retry_nums_count_attempts (sis d).
Proof.
  induction 1 as [svc repo i wf d Hinit | o d _ IH].
  - simpl in Hinit. destruct (repo_create repo _); [|done].
    injection Hinit as <-. intros k si Hk. done.
  - eapply evolves_retry_nums; [apply perform_evolves | exact IH].
Qed.

(** C2: in every driver reached from a new workflow instance by any calls of
    start, next, get_status, cancel_state, retry and cancel_workflow, each
    state instance's retry number is the number of state instances before it
    in the sequence that are attempts of the same state definition (the same
    object); the N-th attempt of a definition carries retry number N - 1. *)
Theorem retry_num_counts_earlier_attempts (d : OWDLDriver) (i : nat)
    (si : OWDLStateInstance) :
  reachable d ->
  sis d !! i = Some si ->
  retry_num si = Z.of_nat (attempts (owdl_state si) (take i (sis d))).
Proof.
  intros Hreach Hi. by apply reachable_retry_nums.
Qed.

(** ** retry *)

Section Retry.

Variables (d : OWDLDriver) (args : option (list string)).

Lemma retry_workflow_status :
  wi_status (owdl_workflow_instance d) ∈ [W_CREATED; W_CANCELLED; W_COMPLETED] ->
  retry args d =
    (Raise (OWDLRuntimeError "Invalid Workflow status for retry"), d).
Proof.
  intros H. unfold_driver. simpl. by rewrite (bool_decide_eq_true_2 _ H).
Qed.

Lemma retry_no_state_instance :
  wi_status (owdl_workflow_instance d) ∉ [W_CREATED; W_CANCELLED; W_COMPLETED] ->
  last (sis d) = None ->
  retry args d = (Raise NoStateStarted, d).
Proof.
  intros H Hlast. unfold_driver. simpl.
  by rewrite (bool_decide_eq_false_2 _ H), Hlast.
Qed.

Lemma retry_limit_reached si :
  wi_status (owdl_workflow_instance d) ∉ [W_CREATED; W_CANCELLED; W_COMPLETED] ->
  last (sis d) = Some si ->
  retry_num si >= retry_count (owdl_state si) ->
  retry args d = (Raise RetryLimitExceeded, d).
Proof.
  intros H Hlast Hlim. unfold_driver. simpl.
  rewrite (bool_decide_eq_false_2 _ H). repeat (rewrite Hlast; simpl).
  by rewrite (bool_decide_eq_true_2 _ Hlim).
Qed.

Lemma retry_not_failed si :
  wi_status (owdl_workflow_instance d) ∉ [W_CREATED; W_CANCELLED; W_COMPLETED] ->
  last (sis d) = Some si ->
  retry_num si < retry_count (owdl_state si) ->
  status si ∉ [S_FAILED; S_CANCELLED] ->
  retry args d = (Ok tt, d).
Proof.
  intros H Hlast Hlim Hs. unfold_driver. simpl.
  rewrite (bool_decide_eq_false_2 _ H). repeat (rewrite Hlast; simpl).
  rewrite bool_decide_eq_false_2 by lia. repeat (rewrite Hlast; simpl).
  by rewrite (bool_decide_eq_false_2 _ Hs).
Qed.

(** Past its guards, [retry] assigns STARTED to the current state instance
    and then executes its definition. *)
Lemma retry_runs si :
  wi_status (owdl_workflow_instance d) ∉ [W_CREATED; W_CANCELLED; W_COMPLETED] ->
  last (sis d) = Some si ->
  retry_num si < retry_count (owdl_state si) ->
  status si ∈ [S_FAILED; S_CANCELLED] ->
  retry args d = _run_state (owdl_state si) args (current_restarted d).
Proof.
  intros H Hlast Hlim Hs.
  unfold retry, get_current_state_instance, assign_current, bind, ret, raise,
    self, modify.
  simpl. rewrite (bool_decide_eq_false_2 _ H). repeat (rewrite Hlast; simpl).
  rewrite bool_decide_eq_false_2 by lia. repeat (rewrite Hlast; simpl).
  by rewrite (bool_decide_eq_true_2 _ Hs).
Qed.

Lemma current_restarted_sis pre si :
  sis d = pre ++ [si] ->
  sis (current_restarted d) = pre ++ [with_status S_STARTED si].
Proof. intros H. simpl. by rewrite H, alter_last_snoc. Qed.

(** Either [retry] leaves the sequence at its length, or it went through all
    its guards and the state execution after them. *)
Lemma retry_outcome :
  length (sis (snd (retry args d))) = length (sis d)
  \/ exists pre si cs,
       sis d = pre ++ [si]
       /\ (wi_status (owdl_workflow_instance d)
             ∉ [W_CREATED; W_CANCELLED; W_COMPLETED])
       /\ retry_num si < retry_count (owdl_state si)
       /\ (status si ∈ [S_FAILED; S_CANCELLED])
       /\ retry args d =
            (Ok tt,
             after_run_state (owdl_state si) args cs (current_restarted d)).
Proof.
  destruct (decide (wi_status (owdl_workflow_instance d)
                    ∈ [W_CREATED; W_CANCELLED; W_COMPLETED])) as [H|H].
  { left. by rewrite retry_workflow_status. }
  destruct (last (sis d)) as [si|] eqn:Hlast.
  2: { left. by rewrite retry_no_state_instance. }
  destruct (decide (retry_num si >= retry_count (owdl_state si))) as [Hlim|Hlim].
  { left. by rewrite (retry_limit_reached si). }
  destruct (decide (status si ∈ [S_FAILED; S_CANCELLED])) as [Hs|Hs].
  2: { left. by rewrite (retry_not_failed si) by (done || lia). }
  rewrite (retry_runs si) by (done || lia).
  destruct (run_state_cases (owdl_state si) args (current_restarted d))
    as [-> | [[e ->] | [cs Hok]]].
  - left. simpl. apply alter_last_length.
  - left. simpl. apply alter_last_length.
  - right. apply last_snoc_inv in Hlast as [pre Hpre].
    exists pre, si, cs. repeat split; (done || lia).
Qed.

End Retry.

Lemma attempts_alter_last (f : OWDLStateInstance -> OWDLStateInstance)
    (st : OWDLState) (l : list OWDLStateInstance) :
  (forall si, owdl_state (f si) = owdl_state si) ->
  attempts st (alter_last f l) = attempts st l.
Proof.
  intros Hf. destruct l as [|x l _] using rev_ind; [done|].
  by rewrite alter_last_snoc, !attempts_app, !attempts_one, Hf.
Qed.

Lemma OWDLState_eq_refl (st : OWDLState) : OWDLState_eq st st = true.
Proof. unfold OWDLState_eq. by apply bool_decide_eq_true_2. Qed.

(** C1, as the driver has it: on a workflow instance whose status is not
    CREATED, CANCELLED or COMPLETED, whose last state instance is FAILED or
    CANCELLED with a retry number below its definition's [retry_count], a
    [retry] that returns has assigned STARTED to that last state instance
    (nothing else of it changes, and the state instances before it are as
    they were) and has appended a state instance of the same definition with
    status STARTED, whose retry number is the number of state instances of
    that definition that were in the sequence. *)
Theorem retry_restarts_and_appends (d d' : OWDLDriver)
    (args : option (list string)) (si : OWDLStateInstance) :
  wi_status (owdl_workflow_instance d) ∉ [W_CREATED; W_CANCELLED; W_COMPLETED] ->
  last (sis d) = Some si ->
  status si = S_FAILED \/ status si = S_CANCELLED ->
  retry_num si < retry_count (owdl_state si) ->
  retry args d = (Ok tt, d') ->
  exists pre cs,
    sis d = pre ++ [si]
    /\ sis d' =
         pre ++ [ with_status S_STARTED si;
                  {| owdl_state := owdl_state si; containers := cs;
                     status := S_STARTED;
                     retry_num :=
                       Z.of_nat (attempts (owdl_state si) (sis d)) |} ].
Proof.
  intros Hw Hlast Hs Hlim Hret.
  assert (status si ∈ [S_FAILED; S_CANCELLED]) as Hs'.
  { destruct Hs as [-> | ->]; set_solver. }
  rewrite (retry_runs d args si Hw Hlast Hlim Hs') in Hret.
  destruct (run_state_cases (owdl_state si) args (current_restarted d))
    as [H | [[e H] | [cs H]]]; rewrite H in Hret; try discriminate.
  injection Hret as <-.
  apply last_snoc_inv in Hlast as [pre Hpre]. exists pre, cs.
  split; [done|]. simpl.
  rewrite attempts_alter_last by done.
  by rewrite Hpre, alter_last_snoc, <- app_assoc.
Qed.

(** A call that leaves the sequence at its length has appended nothing: the
    definitions of the records, the last one's too, are the ones they were. *)
Lemma evolves_same_length (st : OWDLState) (l l' : list OWDLStateInstance) :
  evolves l l' ->
  length l' = length l ->
  attempts st l' = attempts st l
  /\ owdl_state <$> last l' = owdl_state <$> last l.
Proof.
  induction 1 as [|f l l' Hev IH Hf|st' cs l l' Hev _]; intros Hlen; [done| |].
  - rewrite alter_last_length in Hlen. destruct (IH Hlen) as [IH1 IH2].
    rewrite attempts_alter_last by (intros si; apply Hf).
    split; [done|]. rewrite <- IH2.
    destruct l' as [|x l' _] using rev_ind; [done|].
    rewrite alter_last_snoc, !last_snoc. simpl. by destruct (Hf x) as [-> _].
  - apply evolves_length in Hev. rewrite length_app in Hlen. simpl in Hlen. lia.
Qed.

Ltac same_length :=
  unfold_driver; simpl;
  repeat (case_bool_decide || case_match || simpl);
  try done; simplify_eq; simpl; by rewrite ?alter_last_length.

Lemma get_status_length (d : OWDLDriver) :
  length (sis (snd (get_status d))) = length (sis d).
Proof. same_length. Qed.

Lemma cancel_state_length (d : OWDLDriver) :
  length (sis (snd (cancel_state d))) = length (sis d).
Proof. same_length. Qed.

Lemma cancel_workflow_length (d : OWDLDriver) :
  length (sis (snd (cancel_workflow d))) = length (sis d).
Proof. same_length. Qed.

(** One call that is not start or next keeps the current definition and
    does not take its number of attempts past [retry_count] + 1. *)
Lemma retry_alone_step (o : operation) (d : OWDLDriver)
    (si : OWDLStateInstance) :
  retry_alone o = true ->
  retry_nums_count_attempts (sis d) ->
  last (sis d) = Some si ->
  (exists si', last (sis (perform o d)) = Some si'
               /\ owdl_state si' = owdl_state si)
  /\ Z.of_nat (attempts (owdl_state si) (sis (perform o d)))
     <= Z.max (Z.of_nat (attempts (owdl_state si) (sis d)))
              (retry_count (owdl_state si) + 1).
Proof.
  intros Ho Hinv Hlast.
  assert (Hkeep : length (sis (perform o d)) = length (sis d) ->
    (exists si', last (sis (perform o d)) = Some si'
                 /\ owdl_state si' = owdl_state si)
    /\ Z.of_nat (attempts (owdl_state si) (sis (perform o d)))
       <= Z.max (Z.of_nat (attempts (owdl_state si) (sis d)))
                (retry_count (owdl_state si) + 1)).
  { intros Hlen.
    destruct (evolves_same_length (owdl_state si) _ _ (perform_evolves o d) Hlen)
      as [Ha Hl].
    rewrite Ha, Hlast in *. split; [|lia].
    destruct (last (sis (perform o d))) as [si'|]; [|done].
    exists si'. split; [done|]. by injection Hl. }
  destruct o as [| | | |args|]; try done.
  - apply Hkeep, get_status_length.
  - apply Hkeep, cancel_state_length.
  - destruct (retry_outcome d args)
      as [Hsame | (pre & si0 & cs & Hpre & _ & Hlim & _ & Hret)];
      [by apply Hkeep|].
    simpl. rewrite Hret. simpl.
    rewrite Hpre, last_snoc in Hlast. injection Hlast as ->.
    rewrite last_snoc. split; [by eexists|].
    rewrite Hpre in Hinv. apply retry_nums_snoc in Hinv as [_ Hnum].
    rewrite !attempts_app, attempts_one, OWDLState_eq_refl.
    rewrite attempts_alter_last by done.
    rewrite Hpre, attempts_app, attempts_one, OWDLState_eq_refl. lia.
  - apply Hkeep, cancel_workflow_length.
Qed.

Lemma perform_all_reachable (os : list operation) (d : OWDLDriver) :
  reachable d -> reachable (perform_all os d).
Proof.
  revert d. induction os as [|o os IH]; intros d Hd; [done|].
  simpl. apply IH. by apply reachable_step.
Qed.

Lemma retry_alone_bound (os : list operation) : forall d si,
  reachable d ->
  last (sis d) = Some si ->
  forallb retry_alone os = true ->
  Z.of_nat (attempts (owdl_state si) (sis (perform_all os d)))
  <= Z.max (Z.of_nat (attempts (owdl_state si) (sis d)))
           (retry_count (owdl_state si) + 1).
Proof.
  induction os as [|o os IH]; intros d si Hd Hlast Hos; simpl in *; [lia|].
  apply andb_prop in Hos as [Ho Hos].
  destruct (retry_alone_step o d si Ho (reachable_retry_nums d Hd) Hlast)
    as [(si' & Hlast' & Hst) Hle].
  specialize (IH (perform o d) si' (reachable_step o d Hd) Hlast' Hos).
  rewrite Hst in IH. fold (perform_all os (perform o d)). lia.
Qed.

(** C5: on a workflow instance whose status is not CREATED, CANCELLED or
    COMPLETED and whose last state instance has a retry number at or above
    its definition's [retry_count], [retry] fails with RetryLimitExceeded and
    leaves the driver as it was; so, in a driver reached from a new workflow
    instance, a state instance that [retry] appends is never more than the
    ([retry_count] + 1)-th of its definition, and no run of calls other than
    start and next takes the number of state instances of the current
    definition past [retry_count] + 1 (unless it was past it before). *)
Theorem retry_limit (d : OWDLDriver) (args : option (list string)) :
  (forall si,
     wi_status (owdl_workflow_instance d)
       ∉ [W_CREATED; W_CANCELLED; W_COMPLETED] ->
     last (sis d) = Some si ->
     retry_num si >= retry_count (owdl_state si) ->
     retry args d = (Raise RetryLimitExceeded, d))
  /\ (reachable d ->
      forall new,
        (length (sis d) < length (sis (snd (retry args d))))%nat ->
        last (sis (snd (retry args d))) = Some new ->
        Z.of_nat (attempts (owdl_state new) (sis (snd (retry args d))))
        <= retry_count (owdl_state new) + 1)
  /\ (reachable d ->
      forall os si,
        last (sis d) = Some si ->
        forallb retry_alone os = true ->
        Z.of_nat (attempts (owdl_state si) (sis (perform_all os d)))
        <= Z.max (Z.of_nat (attempts (owdl_state si) (sis d)))
                 (retry_count (owdl_state si) + 1)).
Proof.
  split; [intros si; apply retry_limit_reached|]. split.
  - intros Hreach new Hlen Hnew.
    destruct (retry_outcome d args)
      as [Hsame | (pre & si & cs & Hpre & _ & Hlim & _ & Hret)]; [lia|].
    rewrite Hret in Hnew |- *. simpl in Hnew |- *.
    rewrite last_snoc in Hnew. injection Hnew as <-. simpl.
    apply reachable_retry_nums in Hreach. rewrite Hpre in Hreach.
    apply retry_nums_snoc in Hreach as [_ Hnum].
    rewrite !attempts_app, attempts_one, OWDLState_eq_refl.
    rewrite attempts_alter_last by done.
    rewrite Hpre, attempts_app, attempts_one, OWDLState_eq_refl. lia.
  - intros Hreach os si Hlast Hos. by apply retry_alone_bound.
Qed.

(** C3, as the driver has it: with a non-empty [args] whose length is not
    that of the argument list of the definition to execute, [_run_state]
    fails with InvalidArguments before it calls the backend and leaves the
    driver as it was; so does [next], past its guards, for the state it
    resolved.  [retry], when it executes the state (the workflow not CREATED,
    CANCELLED or COMPLETED, the current state instance FAILED or CANCELLED
    and under its retry limit), fails the same way: no backend call, no
    state instance appended, the workflow status and every state instance
    before the current one as they were, and the current one with its
    definition, containers and retry number. *)
Theorem mismatched_args_refused (d : OWDLDriver) (a : string)
    (rest : list string) :
  (forall st,
     length (a :: rest) <> length (cmd_args_list st) ->
     _run_state st (Some (a :: rest)) d = (Raise InvalidArguments, d))
  /\ (forall si st,
        wi_status (owdl_workflow_instance d) = W_STARTED ->
        last (sis d) = Some si ->
        status si = S_COMPLETED ->
        end_ (owdl_state si) = false ->
        (next_ (owdl_state si) = None /\ st = owdl_state si
         \/ exists key, next_ (owdl_state si) = Some key
                        /\ states (owdl_workflow d) !! key = Some st) ->
        length (a :: rest) <> length (cmd_args_list st) ->
        next (Some (a :: rest)) d = (Raise InvalidArguments, d))
  /\ (forall pre si,
        wi_status (owdl_workflow_instance d)
          ∉ [W_CREATED; W_CANCELLED; W_COMPLETED] ->
        sis d = pre ++ [si] ->
        status si = S_FAILED \/ status si = S_CANCELLED ->
        retry_num si < retry_count (owdl_state si) ->
        length (a :: rest) <> length (cmd_args_list (owdl_state si)) ->
        fst (retry (Some (a :: rest)) d) = Raise InvalidArguments
        /\ onedocker (snd (retry (Some (a :: rest)) d)) = onedocker d
        /\ wi_status (owdl_workflow_instance (snd (retry (Some (a :: rest)) d)))
           = wi_status (owdl_workflow_instance d)
        /\ exists si',
             sis (snd (retry (Some (a :: rest)) d)) = pre ++ [si']
             /\ owdl_state si' = owdl_state si
             /\ containers si' = containers si
             /\ retry_num si' = retry_num si).
Proof.
  split; [|split].
  - intros st Hlen. by apply run_state_bad_args.
  - intros si st Hw Hlast Hs He Hres Hlen.
    rewrite (next_runs d _ si Hw Hlast Hs He).
    destruct Hres as [[-> ->] | (key & -> & ->)];
      by apply run_state_bad_args.
  - intros pre si Hw Hpre Hs Hlim Hlen.
    assert (status si ∈ [S_FAILED; S_CANCELLED]) as Hs'.
    { destruct Hs as [-> | ->]; set_solver. }
    assert (last (sis d) = Some si) as Hlast by (by rewrite Hpre, last_snoc).
    rewrite (retry_runs d _ si Hw Hlast Hlim Hs').
    rewrite run_state_bad_args by done.
    repeat split. eexists. split; [by apply current_restarted_sis|done].
Qed.

(** ** cancel_state and cancel_workflow *)

Section Cancel.

Variable d : OWDLDriver.

Lemma cancel_state_workflow_status :
  wi_status (owdl_workflow_instance d) <> W_STARTED ->
  cancel_state d =
    (Raise (OWDLRuntimeError "Invalid Workflow status for cancelling State"),
     d).
Proof.
  intros H. unfold_driver. simpl. by rewrite (bool_decide_eq_false_2 _ H).
Qed.

Lemma cancel_state_no_state_instance :
  wi_status (owdl_workflow_instance d) = W_STARTED ->
  last (sis d) = None ->
  cancel_state d = (Raise NoStateStarted, d).
Proof.
  intros H Hlast. unfold_driver. simpl.
  rewrite (bool_decide_eq_true_2 _ H). simpl. by rewrite Hlast.
Qed.

Lemma cancel_state_state_status si :
  wi_status (owdl_workflow_instance d) = W_STARTED ->
  last (sis d) = Some si ->
  status si <> S_STARTED ->
  cancel_state d =
    (Raise (OWDLRuntimeError "Invalid State status for cancelling State"), d).
Proof.
  intros H Hlast Hs. unfold_driver. simpl.
  rewrite (bool_decide_eq_true_2 _ H). simpl. rewrite Hlast. simpl.
  by rewrite (bool_decide_eq_false_2 _ Hs).
Qed.

(** Past its guards, [cancel_state] assigns CANCELLED to the current state
    instance and asks the backend to stop its containers; the backend's reply
    is the outcome of the call. *)
Lemma cancel_state_runs si :
  wi_status (owdl_workflow_instance d) = W_STARTED ->
  last (sis d) = Some si ->
  status si = S_STARTED ->
  cancel_state d =
    (reply_stop (onedocker d) (calls (onedocker d))
       (map instance_id (containers si)),
     with_onedocker
       (record_call (StopContainers (map instance_id (containers si))))
       (with_instance
          (fun w =>
             with_state_instances
               (alter_last (with_status S_CANCELLED) (state_instances w)) w)
          d)).
Proof.
  intros H Hlast Hs. unfold_driver. simpl.
  rewrite (bool_decide_eq_true_2 _ H). simpl. rewrite Hlast. simpl.
  by rewrite (bool_decide_eq_true_2 _ Hs).
Qed.

Lemma cancel_state_keeps_workflow_status :
  wi_status (owdl_workflow_instance (snd (cancel_state d)))
  = wi_status (owdl_workflow_instance d).
Proof.
  destruct (decide (wi_status (owdl_workflow_instance d) = W_STARTED))
    as [H|H]; [|by rewrite cancel_state_workflow_status].
  destruct (last (sis d)) as [si|] eqn:Hlast;
    [|by rewrite cancel_state_no_state_instance].
  destruct (decide (status si = S_STARTED)) as [Hs|Hs];
    [|by rewrite (cancel_state_state_status si)].
  by rewrite (cancel_state_runs si).
Qed.

Lemma cancel_state_guard_fails :
  ~ (wi_status (owdl_workflow_instance d) = W_STARTED
     /\ exists si, last (sis d) = Some si /\ status si = S_STARTED) ->
  exists e, cancel_state d = (Raise e, d).
Proof.
  intros Hg.
  destruct (decide (wi_status (owdl_workflow_instance d) = W_STARTED))
    as [H|H]; [|by eexists; apply cancel_state_workflow_status].
  destruct (last (sis d)) as [si|] eqn:Hlast;
    [|by eexists; apply cancel_state_no_state_instance].
  destruct (decide (status si = S_STARTED)) as [Hs|Hs];
    [|by eexists; apply (cancel_state_state_status si)].
  destruct Hg. eauto.
Qed.

End Cancel.

(** C8: [cancel_workflow] sets the workflow status to CANCELLED exactly when
    its [cancel_state] call returns; a failure of [cancel_state] is the
    failure of [cancel_workflow], with the workflow status as it was.
    [cancel_state] returns only if the workflow and the current state
    instance are STARTED, and then whenever the backend stops the containers;
    if that guard fails, [cancel_workflow] fails and leaves the driver, the
    workflow status and every state instance with it, as it was. *)
Theorem cancel_workflow_follows_cancel_state (d : OWDLDriver) :
  (forall d', cancel_state d = (Ok tt, d') ->
     cancel_workflow d = (Ok tt, with_instance (with_wi_status W_CANCELLED) d'))
  /\ (forall e d', cancel_state d = (Raise e, d') ->
        cancel_workflow d = (Raise e, d')
        /\ wi_status (owdl_workflow_instance d')
           = wi_status (owdl_workflow_instance d))
  /\ (forall u, fst (cancel_state d) = Ok u ->
        wi_status (owdl_workflow_instance d) = W_STARTED
        /\ exists si, last (sis d) = Some si /\ status si = S_STARTED)
  /\ (forall si,
        wi_status (owdl_workflow_instance d) = W_STARTED ->
        last (sis d) = Some si ->
        status si = S_STARTED ->
        reply_stop (onedocker d) (calls (onedocker d))
          (map instance_id (containers si)) = Ok tt ->
        fst (cancel_workflow d) = Ok tt
        /\ wi_status (owdl_workflow_instance (snd (cancel_workflow d)))
           = W_CANCELLED)
  /\ (~ (wi_status (owdl_workflow_instance d) = W_STARTED
         /\ exists si, last (sis d) = Some si /\ status si = S_STARTED) ->
      exists e, cancel_workflow d = (Raise e, d)).
Proof.
  split; [|split; [|split; [|split]]].
  - intros d' H. unfold cancel_workflow, bind. by rewrite H.
  - intros e d' H. split.
    + unfold cancel_workflow, bind. by rewrite H.
    + pose proof (cancel_state_keeps_workflow_status d) as Hk.
      by rewrite H in Hk.
  - intros u Hok.
    destruct (decide (wi_status (owdl_workflow_instance d) = W_STARTED))
      as [H|H]; [|by rewrite cancel_state_workflow_status in Hok].
    destruct (last (sis d)) as [si|] eqn:Hlast;
      [|by rewrite cancel_state_no_state_instance in Hok].
    destruct (decide (status si = S_STARTED)) as [Hs|Hs];
      [|by rewrite (cancel_state_state_status d si) in Hok].
    eauto.
  - intros si Hw Hlast Hs Hstop. unfold cancel_workflow, bind.
    rewrite (cancel_state_runs d si Hw Hlast Hs), Hstop. done.
  - intros Hg. destruct (cancel_state_guard_fails d Hg) as [e He].
    exists e. unfold cancel_workflow, bind. by rewrite He.
Qed.

(** ** The model run on the sample workflow *)

Ltac by_compute := vm_compute; first [reflexivity | discriminate | lia].
Ltac decide_by_compute :=
  refine (bool_decide_unpack _ _); vm_compute; exact I.

Lemma fresh_reachable wf st : reachable (Sample.fresh wf st).
Proof.
  by apply (reachable_new (Sample.backend st) Sample.repo "run" wf).
Qed.

Lemma failed_A_reachable : reachable Sample.failed_A.
Proof. do 2 apply reachable_step. apply fresh_reachable. Qed.

Lemma retried_A_reachable : reachable Sample.retried_A.
Proof. apply reachable_step, failed_A_reachable. Qed.

(** [start] on a new instance: one state instance, of the starting state,
    with retry number 0, and the workflow STARTED. *)
Example started_A_sequence :
  sis Sample.started_A
  = [{| owdl_state := Sample.A;
        containers := [{| instance_id := "c"; c_status := CI_STARTED |}];
        status := S_STARTED; retry_num := 0 |}]
  /\ wi_status (owdl_workflow_instance Sample.started_A) = W_STARTED
  /\ calls (onedocker Sample.started_A)
     = [StartContainers "pce" "compute" ["--input=a"] (Some 60)].
Proof. by vm_compute. Qed.

(** Arguments given to [next] are joined to the base arguments one by one. *)
Example merged_args_B :
  merged_args Sample.B (Some ["--threads=4"]) = ["--input=b --threads=4"].
Proof. reflexivity. Qed.

(** One retry is all A allows: a second one, after another failure, is
    refused, so A never has more than two state instances by retrying. *)
Example retried_A_twice :
  retry None (perform GetStatus Sample.retried_A)
  = (Raise RetryLimitExceeded, perform GetStatus Sample.retried_A)
  /\ attempts Sample.A
       (sis (perform_all [Retry None; GetStatus; Retry None; GetStatus;
                          Retry None] Sample.failed_A)) = 2%nat.
Proof. by vm_compute. Qed.

(** The scenario of the retry: after the retry the first attempt of A reads
    STARTED and a second attempt, with retry number 1, follows it. *)
Example retried_A_sequence :
  sis Sample.failed_A = [Sample.first_A]
  /\ sis Sample.retried_A
     = [with_status S_STARTED Sample.first_A; Sample.second_A]
  /\ wi_status (owdl_workflow_instance Sample.retried_A) = W_FAILED.
Proof. by vm_compute. Qed.

Lemma retry_num_counts_earlier_attempts_witness :
  reachable Sample.retried_A
  /\ sis Sample.retried_A !! 1%nat = Some Sample.second_A
  /\ retry_num Sample.second_A
     = Z.of_nat (attempts (owdl_state Sample.second_A)
                   (take 1 (sis Sample.retried_A))).
Proof.
  assert (Hlook : sis Sample.retried_A !! 1%nat = Some Sample.second_A)
    by (vm_compute; reflexivity).
  split; [apply retried_A_reachable|]. split; [exact Hlook|].
  exact (retry_num_counts_earlier_attempts Sample.retried_A 1
           Sample.second_A retried_A_reachable Hlook).
Defined.

(** C1 fails as stated: the retry of the failed A returns, and the state
    instance that was FAILED now reads STARTED; the sequence is not the old
    one with a record appended. *)
Lemma retry_overwrites_prior_status :
  wi_status (owdl_workflow_instance Sample.failed_A) = W_FAILED
  /\ sis Sample.failed_A = [Sample.first_A]
  /\ status Sample.first_A = S_FAILED
  /\ retry_num Sample.first_A < retry_count (owdl_state Sample.first_A)
  /\ fst (retry None Sample.failed_A) = Ok tt
  /\ (status <$> sis (snd (retry None Sample.failed_A)))
     = [S_STARTED; S_STARTED]
  /\ ~ (exists new,
          sis (snd (retry None Sample.failed_A))
          = sis Sample.failed_A ++ [new]).
Proof.
  repeat split; try by_compute.
  intros [new Hnew]. vm_compute in Hnew. discriminate.
Qed.

Lemma retry_restarts_and_appends_witness :
  (wi_status (owdl_workflow_instance Sample.failed_A)
    ∉ [W_CREATED; W_CANCELLED; W_COMPLETED])
  /\ last (sis Sample.failed_A) = Some Sample.first_A
  /\ retry None Sample.failed_A = (Ok tt, Sample.retried_A)
  /\ exists pre cs,
       sis Sample.failed_A = pre ++ [Sample.first_A]
       /\ sis Sample.retried_A
          = pre ++ [ with_status S_STARTED Sample.first_A;
                     {| owdl_state := owdl_state Sample.first_A;
                        containers := cs; status := S_STARTED;
                        retry_num :=
                          Z.of_nat (attempts (owdl_state Sample.first_A)
                                      (sis Sample.failed_A)) |} ].
Proof.
  assert (H1 : wi_status (owdl_workflow_instance Sample.failed_A)
               ∉ [W_CREATED; W_CANCELLED; W_COMPLETED])
    by decide_by_compute.
  assert (H2 : last (sis Sample.failed_A) = Some Sample.first_A)
    by (vm_compute; reflexivity).
  assert (H3 : retry None Sample.failed_A = (Ok tt, Sample.retried_A))
    by (vm_compute; reflexivity).
  split; [exact H1|]. split; [exact H2|]. split; [exact H3|].
  apply (retry_restarts_and_appends Sample.failed_A Sample.retried_A None
           Sample.first_A H1 H2).
  - left. reflexivity.
  - vm_compute. reflexivity.
  - exact H3.
Defined.

(** A retry of the failed A with two arguments, where A takes one: it fails
    with InvalidArguments and calls no backend, and the state instance that
    was FAILED reads STARTED afterwards. *)
Lemma retry_bad_args_changes_status :
  wi_status (owdl_workflow_instance Sample.failed_A) = W_FAILED
  /\ sis Sample.failed_A = [Sample.first_A]
  /\ length ["x"; "y"] <> length (cmd_args_list (owdl_state Sample.first_A))
  /\ fst (retry (Some ["x"; "y"]) Sample.failed_A) = Raise InvalidArguments
  /\ onedocker (snd (retry (Some ["x"; "y"]) Sample.failed_A))
     = onedocker Sample.failed_A
  /\ (status <$> sis Sample.failed_A) = [S_FAILED]
  /\ (status <$> sis (snd (retry (Some ["x"; "y"]) Sample.failed_A)))
     = [S_STARTED]
  /\ owdl_workflow_instance (snd (retry (Some ["x"; "y"]) Sample.failed_A))
     <> owdl_workflow_instance Sample.failed_A.
Proof.
  repeat split; by_compute.
Qed.

Lemma mismatched_args_refused_witness :
  (wi_status (owdl_workflow_instance Sample.failed_A)
    ∉ [W_CREATED; W_CANCELLED; W_COMPLETED])
  /\ sis Sample.failed_A = [] ++ [Sample.first_A]
  /\ (status Sample.first_A = S_FAILED \/ status Sample.first_A = S_CANCELLED)
  /\ retry_num Sample.first_A < retry_count (owdl_state Sample.first_A)
  /\ length ["x"; "y"] <> length (cmd_args_list (owdl_state Sample.first_A))
  /\ fst (retry (Some ["x"; "y"]) Sample.failed_A) = Raise InvalidArguments
  /\ onedocker (snd (retry (Some ["x"; "y"]) Sample.failed_A))
     = onedocker Sample.failed_A
  /\ wi_status
       (owdl_workflow_instance (snd (retry (Some ["x"; "y"]) Sample.failed_A)))
     = wi_status (owdl_workflow_instance Sample.failed_A)
  /\ exists si',
       sis (snd (retry (Some ["x"; "y"]) Sample.failed_A)) = [] ++ [si']
       /\ owdl_state si' = owdl_state Sample.first_A
       /\ containers si' = containers Sample.first_A
       /\ retry_num si' = retry_num Sample.first_A.
Proof.
  assert (H1 : wi_status (owdl_workflow_instance Sample.failed_A)
               ∉ [W_CREATED; W_CANCELLED; W_COMPLETED])
    by decide_by_compute.
  assert (H2 : sis Sample.failed_A = [] ++ [Sample.first_A])
    by (vm_compute; reflexivity).
  assert (H3 : status Sample.first_A = S_FAILED
               \/ status Sample.first_A = S_CANCELLED)
    by (left; reflexivity).
  assert (H4 : retry_num Sample.first_A
               < retry_count (owdl_state Sample.first_A))
    by (vm_compute; reflexivity).
  assert (H5 : length ["x"; "y"]
               <> length (cmd_args_list (owdl_state Sample.first_A)))
    by (vm_compute; discriminate).
  split; [exact H1|]. split; [exact H2|]. split; [exact H3|].
  split; [exact H4|]. split; [exact H5|].
  exact (proj2 (proj2 (mismatched_args_refused Sample.failed_A "x" ["y"]))
           [] Sample.first_A H1 H2 H3 H4 H5).
Defined.

Lemma retry_limit_witness :
  ((wi_status (owdl_workflow_instance Sample.retried_A)
      ∉ [W_CREATED; W_CANCELLED; W_COMPLETED])
   /\ last (sis Sample.retried_A) = Some Sample.second_A
   /\ retry_num Sample.second_A >= retry_count (owdl_state Sample.second_A)
   /\ retry None Sample.retried_A
      = (Raise RetryLimitExceeded, Sample.retried_A))
  /\ (reachable Sample.failed_A
      /\ (length (sis Sample.failed_A)
          < length (sis (snd (retry None Sample.failed_A))))%nat
      /\ last (sis (snd (retry None Sample.failed_A))) = Some Sample.second_A
      /\ Z.of_nat (attempts (owdl_state Sample.second_A)
                     (sis (snd (retry None Sample.failed_A))))
         <= retry_count (owdl_state Sample.second_A) + 1).
Proof.
  assert (H1 : wi_status (owdl_workflow_instance Sample.retried_A)
               ∉ [W_CREATED; W_CANCELLED; W_COMPLETED])
    by decide_by_compute.
  assert (H2 : last (sis Sample.retried_A) = Some Sample.second_A)
    by (vm_compute; reflexivity).
  assert (H3 : retry_num Sample.second_A
               >= retry_count (owdl_state Sample.second_A))
    by (vm_compute; discriminate).
  assert (H4 : (length (sis Sample.failed_A)
                < length (sis (snd (retry None Sample.failed_A))))%nat)
    by (vm_compute; lia).
  assert (H5 : last (sis (snd (retry None Sample.failed_A)))
               = Some Sample.second_A)
    by (vm_compute; reflexivity).
  split.
  - split; [exact H1|]. split; [exact H2|]. split; [exact H3|].
    exact (proj1 (retry_limit Sample.retried_A None) Sample.second_A H1 H2 H3).
  - split; [exact failed_A_reachable|]. split; [exact H4|].
    split; [exact H5|].
    exact (proj1 (proj2 (retry_limit Sample.failed_A None))
             failed_A_reachable Sample.second_A H4 H5).
Defined.

(** C6 fails as stated: on a new workflow instance, which is CREATED and
    not STARTED, [next] fails with NoStateStarted, which is not an
    InvalidTransition. *)
Lemma next_before_start_is_no_state_started :
  wi_status (owdl_workflow_instance (Sample.fresh Sample.workflow CI_STARTED))
    <> W_STARTED
  /\ next None (Sample.fresh Sample.workflow CI_STARTED)
     = (Raise NoStateStarted, Sample.fresh Sample.workflow CI_STARTED)
  /\ InvalidTransition NoStateStarted = false.
Proof. repeat split; by_compute. Qed.

Lemma next_refused_witness :
  (last (sis Sample.failed_A) = Some Sample.first_A
   /\ (wi_status (owdl_workflow_instance Sample.failed_A) <> W_STARTED
       \/ status Sample.first_A <> S_COMPLETED)
   /\ exists e, InvalidTransition e = true
                /\ next None Sample.failed_A = (Raise e, Sample.failed_A))
  /\ (last (sis (Sample.fresh Sample.workflow CI_STARTED)) = None
      /\ next None (Sample.fresh Sample.workflow CI_STARTED)
         = (Raise NoStateStarted, Sample.fresh Sample.workflow CI_STARTED)).
Proof.
  assert (H1 : last (sis Sample.failed_A) = Some Sample.first_A)
    by (vm_compute; reflexivity).
  assert (H2 : wi_status (owdl_workflow_instance Sample.failed_A) <> W_STARTED
               \/ status Sample.first_A <> S_COMPLETED)
    by (left; vm_compute; discriminate).
  assert (H3 : last (sis (Sample.fresh Sample.workflow CI_STARTED)) = None)
    by reflexivity.
  split.
  - split; [exact H1|]. split; [exact H2|].
    exact (proj1 (next_refused Sample.failed_A None) Sample.first_A H1 H2).
  - split; [exact H3|].
    exact (proj2 (next_refused (Sample.fresh Sample.workflow CI_STARTED) None)
             H3).
Defined.

Lemma next_on_terminal_state_witness :
  wi_status (owdl_workflow_instance Sample.completed_B) = W_STARTED
  /\ last (sis Sample.completed_B) = Some Sample.done_B
  /\ status Sample.done_B = S_COMPLETED
  /\ end_ (owdl_state Sample.done_B) = true
  /\ fst (next None Sample.completed_B) = Ok tt
  /\ wi_status (owdl_workflow_instance (snd (next None Sample.completed_B)))
     = W_COMPLETED
  /\ sis (snd (next None Sample.completed_B)) = sis Sample.completed_B
  /\ onedocker (snd (next None Sample.completed_B))
     = onedocker Sample.completed_B.
Proof.
  assert (H1 : wi_status (owdl_workflow_instance Sample.completed_B)
               = W_STARTED) by (vm_compute; reflexivity).
  assert (H2 : last (sis Sample.completed_B) = Some Sample.done_B)
    by (vm_compute; reflexivity).
  assert (H3 : status Sample.done_B = S_COMPLETED) by reflexivity.
  assert (H4 : end_ (owdl_state Sample.done_B) = true) by reflexivity.
  split; [exact H1|]. split; [exact H2|]. split; [exact H3|].
  split; [exact H4|].
  exact (next_on_terminal_state Sample.completed_B None Sample.done_B
           H1 H2 H3 H4).
Defined.

Lemma next_without_next_state_witness :
  wi_status (owdl_workflow_instance Sample.completed_L) = W_STARTED
  /\ last (sis Sample.completed_L) = Some Sample.done_L
  /\ end_ (owdl_state Sample.done_L) = false
  /\ next_ (owdl_state Sample.done_L) = None
  /\ next None Sample.completed_L
     = _run_state (owdl_state Sample.done_L) None Sample.completed_L
  /\ fst (next None Sample.completed_L) = Ok tt
  /\ sis (snd (next None Sample.completed_L))
     = sis Sample.completed_L
       ++ [{| owdl_state := owdl_state Sample.done_L;
              containers := [{| instance_id := "c"; c_status := CI_STARTED |}];
              status := S_STARTED;
              retry_num :=
                Z.of_nat (attempts (owdl_state Sample.done_L)
                            (sis Sample.completed_L)) |}].
Proof.
  assert (H1 : wi_status (owdl_workflow_instance Sample.completed_L)
               = W_STARTED) by (vm_compute; reflexivity).
  assert (H2 : last (sis Sample.completed_L) = Some Sample.done_L)
    by (vm_compute; reflexivity).
  assert (H3 : end_ (owdl_state Sample.done_L) = false) by reflexivity.
  assert (H4 : next_ (owdl_state Sample.done_L) = None) by reflexivity.
  split; [exact H1|]. split; [exact H2|]. split; [exact H3|].
  split; [exact H4|].
  apply (next_without_next_state Sample.completed_L None Sample.done_L
           [{| instance_id := "c"; c_status := CI_STARTED |}] H1 H2);
    [reflexivity | exact H3 | exact H4 | reflexivity | reflexivity].
Defined.

Lemma cancel_workflow_follows_cancel_state_witness :
  (wi_status (owdl_workflow_instance Sample.started_A) = W_STARTED
   /\ fst (cancel_workflow Sample.started_A) = Ok tt
   /\ wi_status (owdl_workflow_instance (snd (cancel_workflow Sample.started_A)))
      = W_CANCELLED)
  /\ (~ (wi_status (owdl_workflow_instance Sample.failed_A) = W_STARTED
         /\ exists si, last (sis Sample.failed_A) = Some si
                       /\ status si = S_STARTED)
      /\ exists e, cancel_workflow Sample.failed_A = (Raise e, Sample.failed_A)).
Proof.
  assert (H1 : wi_status (owdl_workflow_instance Sample.started_A) = W_STARTED)
    by (vm_compute; reflexivity).
  assert (H2 : ~ (wi_status (owdl_workflow_instance Sample.failed_A) = W_STARTED
                  /\ exists si, last (sis Sample.failed_A) = Some si
                                /\ status si = S_STARTED))
    by (intros [H _]; vm_compute in H; discriminate).
  split.
  - split; [exact H1|].
    apply (proj1 (proj2 (proj2 (proj2
             (cancel_workflow_follows_cancel_state Sample.started_A))))
             {| owdl_state := Sample.A;
                containers := [{| instance_id := "c"; c_status := CI_STARTED |}];
                status := S_STARTED; retry_num := 0 |} H1);
      vm_compute; reflexivity.
  - split; [exact H2|].
    exact (proj2 (proj2 (proj2 (proj2
             (cancel_workflow_follows_cancel_state Sample.failed_A)))) H2).
Defined.

(** * Further properties of the driver *)

(** ** start and get_status, path by path *)

Section Start.

Variable d : OWDLDriver.

Lemma start_not_created :
  wi_status (owdl_workflow_instance d) <> W_CREATED ->
  start d =
    (Raise (OWDLRuntimeError "Invalid status while starting the Workflow"), d).
Proof.
  intros H. unfold_driver. simpl. by rewrite (bool_decide_eq_false_2 _ H).
Qed.

Lemma start_no_such_state :
  wi_status (owdl_workflow_instance d) = W_CREATED ->
  states (owdl_workflow d) !! starts_at (owdl_workflow d) = None ->
  start d = (Raise (KeyError (starts_at (owdl_workflow d))), d).
Proof.
  intros H Hst. unfold_driver. simpl.
  rewrite (bool_decide_eq_true_2 _ H). simpl. by rewrite Hst.
Qed.

Lemma start_backend_raises st e :
  wi_status (owdl_workflow_instance d) = W_CREATED ->
  states (owdl_workflow d) !! starts_at (owdl_workflow d) = Some st ->
  reply_start (onedocker d) (calls (onedocker d)) (container_definition st)
    (package_name st) (cmd_args_list st) (timeout st) = Raise e ->
  start d = (Raise e, logged (start_call st None) d).
Proof.
  intros H Hst Hreply. unfold_driver. simpl.
  rewrite (bool_decide_eq_true_2 _ H). simpl. rewrite Hst. simpl.
  by rewrite Hreply.
Qed.

Lemma start_ok st cs :
  wi_status (owdl_workflow_instance d) = W_CREATED ->
  states (owdl_workflow d) !! starts_at (owdl_workflow d) = Some st ->
  reply_start (onedocker d) (calls (onedocker d)) (container_definition st)
    (package_name st) (cmd_args_list st) (timeout st) = Ok cs ->
  start d =
    (Ok tt,
     with_instance (with_wi_status W_STARTED) (after_run_state st None cs d)).
Proof.
  intros H Hst Hreply. unfold_driver. simpl.
  rewrite (bool_decide_eq_true_2 _ H). simpl. rewrite Hst. simpl.
  rewrite Hreply. simpl. rewrite (bool_decide_eq_true_2 _ H). simpl.
  unfold after_run_state, with_instance, with_state_instances, with_wi_status.
  simpl. by rewrite retry_num_sum, Z.add_0_l.
Qed.

End Start.

Section Get_status.

Variable d : OWDLDriver.

Lemma get_status_skips_workflow :
  wi_status (owdl_workflow_instance d) ∈ [W_CREATED; W_COMPLETED] ->
  get_status d = (Ok (owdl_workflow_instance d), d).
Proof.
  intros H. unfold_driver. simpl. by rewrite (bool_decide_eq_true_2 _ H).
Qed.

Lemma get_status_no_state_instance :
  wi_status (owdl_workflow_instance d) ∉ [W_CREATED; W_COMPLETED] ->
  last (sis d) = None ->
  get_status d = (Raise NoStateStarted, d).
Proof.
  intros H Hlast. unfold_driver. simpl.
  rewrite (bool_decide_eq_false_2 _ H). simpl. by rewrite Hlast.
Qed.

Lemma get_status_skips_cancelled si :
  wi_status (owdl_workflow_instance d) ∉ [W_CREATED; W_COMPLETED] ->
  last (sis d) = Some si ->
  status si = S_CANCELLED ->
  get_status d = (Ok (owdl_workflow_instance d), d).
Proof.
  intros H Hlast Hs. unfold_driver. simpl.
  rewrite (bool_decide_eq_false_2 _ H). simpl. rewrite Hlast. simpl.
  by rewrite (bool_decide_eq_true_2 _ Hs).
Qed.

Lemma get_status_backend_raises si e :
  wi_status (owdl_workflow_instance d) ∉ [W_CREATED; W_COMPLETED] ->
  last (sis d) = Some si ->
  status si <> S_CANCELLED ->
  reply_get (onedocker d) (calls (onedocker d)) (container_ids si) = Raise e ->
  get_status d = (Raise e, logged (GetContainers (container_ids si)) d).
Proof.
  intros H Hlast Hs Hreply. unfold_driver. simpl.
  rewrite (bool_decide_eq_false_2 _ H). simpl.
  repeat (rewrite Hlast; simpl).
  rewrite (bool_decide_eq_false_2 _ Hs). repeat (rewrite Hlast; simpl).
  unfold container_ids in Hreply. by rewrite Hreply.
Qed.

Lemma get_status_ok si cs :
  wi_status (owdl_workflow_instance d) ∉ [W_CREATED; W_COMPLETED] ->
  last (sis d) = Some si ->
  status si <> S_CANCELLED ->
  reply_get (onedocker d) (calls (onedocker d)) (container_ids si) = Ok cs ->
  get_status d =
    (Ok (owdl_workflow_instance
           (refreshed cs (logged (GetContainers (container_ids si)) d))),
     refreshed cs (logged (GetContainers (container_ids si)) d)).
Proof.
  intros H Hlast Hs Hreply.
  destruct (last_snoc_inv _ _ Hlast) as [pre Hpre].
  unfold_driver. simpl.
  rewrite (bool_decide_eq_false_2 _ H). simpl.
  repeat (rewrite Hlast; simpl).
  rewrite (bool_decide_eq_false_2 _ Hs). repeat (rewrite Hlast; simpl).
  unfold container_ids in Hreply. rewrite Hreply. simpl.
  repeat (rewrite Hlast; simpl).
  unfold refreshed, logged, container_ids, with_instance, with_onedocker,
    with_wi_status, with_state_instances. simpl.
  repeat (progress (rewrite ?Hpre, ?alter_last_snoc, ?last_snoc; simpl)).
  done.
Qed.

End Get_status.

(** ** Every call is one of the transitions *)

Lemma perform_transition (o : operation) (d : OWDLDriver) :
  transition o d (perform o d).
Proof.
  destruct o as [|args| | |args|]; simpl.
  - (* start *)
    destruct (decide (wi_status (owdl_workflow_instance d) = W_CREATED))
      as [H|H]; [|rewrite start_not_created by done; constructor].
    destruct (states (owdl_workflow d) !! starts_at (owdl_workflow d))
      as [st|] eqn:Hst; [|rewrite start_no_such_state by done; constructor].
    destruct (reply_start (onedocker d) (calls (onedocker d))
                (container_definition st) (package_name st)
                (cmd_args_list st) (timeout st)) as [cs|e] eqn:Hr.
    + rewrite (start_ok d st cs) by done. by apply tr_start.
    + rewrite (start_backend_raises d st e) by done. by apply tr_start_raises.
  - (* next *)
    destruct (last (sis d)) as [si|] eqn:Hlast;
      [|rewrite next_no_state_instance by done; constructor].
    destruct (decide (wi_status (owdl_workflow_instance d) = W_STARTED))
      as [Hw|Hw]; [|rewrite (next_guard d args si) by auto; constructor].
    destruct (decide (status si = S_COMPLETED))
      as [Hs|Hs]; [|rewrite (next_guard d args si) by auto; constructor].
    destruct (end_ (owdl_state si)) eqn:He.
    { rewrite (next_end d args si) by done. by eapply tr_next_end. }
    rewrite (next_runs d args si) by done.
    assert (Hrun : forall st, resolves d si st ->
              transition (Next args) d (snd (_run_state st args d))).
    { intros st Hres.
      destruct (run_state_cases st args d) as [-> | [[e ->] | [cs ->]]]; simpl.
      - constructor.
      - by eapply tr_next_raises.
      - by eapply tr_next. }
    destruct (next_ (owdl_state si)) as [key|] eqn:Hn.
    + destruct (states (owdl_workflow d) !! key) as [st|] eqn:Hk;
        [|constructor].
      apply Hrun. unfold resolves. by rewrite Hn.
    + apply Hrun. unfold resolves. by rewrite Hn.
  - (* get_status *)
    destruct (decide (wi_status (owdl_workflow_instance d)
                      ∈ [W_CREATED; W_COMPLETED])) as [H|H];
      [rewrite get_status_skips_workflow by done; constructor|].
    destruct (last (sis d)) as [si|] eqn:Hlast;
      [|rewrite get_status_no_state_instance by done; constructor].
    destruct (decide (status si = S_CANCELLED)) as [Hs|Hs];
      [rewrite (get_status_skips_cancelled d si) by done; constructor|].
    destruct (reply_get (onedocker d) (calls (onedocker d)) (container_ids si))
      as [cs|e] eqn:Hr.
    + rewrite (get_status_ok d si cs) by done. by eapply tr_get.
    + rewrite (get_status_backend_raises d si e) by done.
      by eapply tr_get_raises.
  - (* cancel_state *)
    destruct (decide (wi_status (owdl_workflow_instance d) = W_STARTED))
      as [H|H]; [|rewrite cancel_state_workflow_status by done; constructor].
    destruct (last (sis d)) as [si|] eqn:Hlast;
      [|rewrite cancel_state_no_state_instance by done; constructor].
    destruct (decide (status si = S_STARTED)) as [Hs|Hs];
      [|rewrite (cancel_state_state_status d si) by done; constructor].
    rewrite (cancel_state_runs d si) by done. simpl.
    eapply tr_cancel_state; eauto.
  - (* retry *)
    destruct (decide (wi_status (owdl_workflow_instance d)
                      ∈ [W_CREATED; W_CANCELLED; W_COMPLETED])) as [H|H];
      [rewrite retry_workflow_status by done; constructor|].
    destruct (last (sis d)) as [si|] eqn:Hlast;
      [|rewrite retry_no_state_instance by done; constructor].
    destruct (decide (retry_num si >= retry_count (owdl_state si)))
      as [Hlim|Hlim];
      [rewrite (retry_limit_reached d args si) by done; constructor|].
    destruct (decide (status si ∈ [S_FAILED; S_CANCELLED])) as [Hs|Hs];
      [|rewrite (retry_not_failed d args si) by (done || lia); constructor].
    rewrite (retry_runs d args si) by (done || lia).
    destruct (run_state_cases (owdl_state si) args (current_restarted d))
      as [-> | [[e ->] | [cs ->]]]; simpl.
    + eapply tr_retry_restarted; eauto; lia.
    + eapply tr_retry_raises; eauto; lia.
    + eapply tr_retry; eauto; lia.
  - (* cancel_workflow *)
    unfold cancel_workflow, bind.
    destruct (decide (wi_status (owdl_workflow_instance d) = W_STARTED))
      as [H|H]; [|rewrite cancel_state_workflow_status by done; constructor].
    destruct (last (sis d)) as [si|] eqn:Hlast;
      [|rewrite cancel_state_no_state_instance by done; constructor].
    destruct (decide (status si = S_STARTED)) as [Hs|Hs];
      [|rewrite (cancel_state_state_status d si) by done; constructor].
    rewrite (cancel_state_runs d si) by done.
    destruct (reply_stop (onedocker d) (calls (onedocker d))
                (map instance_id (containers si))) as [[]|e]; simpl.
    + by eapply tr_cancel_workflow.
    + eapply tr_cancel_state; eauto.
Qed.

(** ** start *)

(** X1: on a CREATED workflow instance whose workflow has its starting state,
    and with a backend that starts the containers, [start] returns, the
    workflow is STARTED, and one state instance of the starting state is
    appended, STARTED, holding the containers, its retry number the number
    of earlier attempts (0 on a new instance); the backend got one start
    call, with the state's base arguments. *)
Theorem start_starts_workflow (d : OWDLDriver) (st : OWDLState)
    (cs : list ContainerInstance) :
  wi_status (owdl_workflow_instance d) = W_CREATED ->
  states (owdl_workflow d) !! starts_at (owdl_workflow d) = Some st ->
  reply_start (onedocker d) (calls (onedocker d)) (container_definition st)
    (package_name st) (cmd_args_list st) (timeout st) = Ok cs ->
  fst (start d) = Ok tt
  /\ wi_status (owdl_workflow_instance (snd (start d))) = W_STARTED
  /\ sis (snd (start d))
     = sis d ++ [{| owdl_state := st; containers := cs; status := S_STARTED;
                    retry_num := Z.of_nat (attempts st (sis d)) |}]
  /\ calls (onedocker (snd (start d)))
     = calls (onedocker d)
       ++ [StartContainers (container_definition st) (package_name st)
             (cmd_args_list st) (timeout st)].
Proof.
  intros H Hst Hr. by rewrite (start_ok d st cs).
Qed.

Lemma start_returns_started (d : OWDLDriver) (u : unit) :
  fst (start d) = Ok u ->
  wi_status (owdl_workflow_instance (snd (start d))) = W_STARTED.
Proof.
  intros Hok.
  destruct (decide (wi_status (owdl_workflow_instance d) = W_CREATED))
    as [H|H]; [|by rewrite start_not_created in Hok].
  destruct (states (owdl_workflow d) !! starts_at (owdl_workflow d))
    as [st|] eqn:Hst; [|by rewrite start_no_such_state in Hok].
  destruct (reply_start (onedocker d) (calls (onedocker d))
              (container_definition st) (package_name st)
              (cmd_args_list st) (timeout st)) as [cs|e] eqn:Hr.
  - by rewrite (start_ok d st cs).
  - by rewrite (start_backend_raises d st e) in Hok.
Qed.

(** X2: [start] is refused on a workflow instance that is not CREATED, with
    the InvalidTransition of its guard and the driver left as it was; so
    after a [start] that returned, a second [start] is refused. *)
Theorem start_only_once (d : OWDLDriver) :
  (wi_status (owdl_workflow_instance d) <> W_CREATED ->
   exists e, InvalidTransition e = true /\ start d = (Raise e, d))
  /\ (forall u, fst (start d) = Ok u ->
        exists e, InvalidTransition e = true
                  /\ start (snd (start d)) = (Raise e, snd (start d))).
Proof.
  assert (Href : forall d0,
            wi_status (owdl_workflow_instance d0) <> W_CREATED ->
            exists e, InvalidTransition e = true /\ start d0 = (Raise e, d0)).
  { intros d0 H. eexists. split; [|by apply start_not_created]. reflexivity. }
  split; [apply Href|].
  intros u Hok. apply Href. by rewrite (start_returns_started d u Hok).
Qed.

(** X3: when the workflow's starting state is not among its states, [start]
    on a CREATED instance raises the KeyError of the lookup and leaves the
    driver as it was; when the backend's start call raises, [start] raises
    the same, the workflow instance is as it was (still CREATED, no state
    instance), and only the call is on the backend's log. *)
Theorem start_fails_cleanly (d : OWDLDriver) :
  wi_status (owdl_workflow_instance d) = W_CREATED ->
  (states (owdl_workflow d) !! starts_at (owdl_workflow d) = None ->
   start d = (Raise (KeyError (starts_at (owdl_workflow d))), d))
  /\ (forall st e,
        states (owdl_workflow d) !! starts_at (owdl_workflow d) = Some st ->
        reply_start (onedocker d) (calls (onedocker d))
          (container_definition st) (package_name st) (cmd_args_list st)
          (timeout st) = Raise e ->
        fst (start d) = Raise e
        /\ owdl_workflow_instance (snd (start d)) = owdl_workflow_instance d
        /\ calls (onedocker (snd (start d)))
           = calls (onedocker d)
             ++ [StartContainers (container_definition st) (package_name st)
                   (cmd_args_list st) (timeout st)]).
Proof.
  intros H. split.
  - by apply start_no_such_state.
  - intros st e Hst Hr. rewrite (start_backend_raises d st e) by done.
    simpl. by destruct d as [? ? []].
Qed.

(** ** get_status *)

Lemma workflow_status_of_containers (s : WorkflowStatus)
    (cs : list ContainerInstance) :
  _get_workflow_status s (_get_state_status cs)
  = if any_failed cs then W_FAILED else s.
Proof.
  unfold _get_state_status. rewrite get_state_status_loop_spec.
  by destruct (any_failed cs), (any_running cs).
Qed.

(** X4: [get_status] on a CREATED or COMPLETED workflow instance, or on one
    whose current state instance is CANCELLED, returns the workflow instance
    and leaves the driver as it was: the backend is not asked. *)
Theorem get_status_leaves_alone (d : OWDLDriver) :
  wi_status (owdl_workflow_instance d) ∈ [W_CREATED; W_COMPLETED]
  \/ (exists si, last (sis d) = Some si /\ status si = S_CANCELLED) ->
  get_status d = (Ok (owdl_workflow_instance d), d).
Proof.
  intros [H | (si & Hlast & Hs)].
  - by apply get_status_skips_workflow.
  - destruct (decide (wi_status (owdl_workflow_instance d)
                      ∈ [W_CREATED; W_COMPLETED])) as [H|H].
    + by apply get_status_skips_workflow.
    + by apply (get_status_skips_cancelled d si).
Qed.

(** X5: otherwise, when the backend answers the query for the current state
    instance's container ids with [cs], [get_status] stores [cs] and the
    status aggregated from them on the current state instance, leaves the
    earlier state instances as they are, sets the workflow FAILED if a
    container of [cs] is FAILED and leaves its status alone if none is, and
    returns the workflow instance so updated; the backend got that one
    query. *)
Theorem get_status_refreshes (d : OWDLDriver) (pre : list OWDLStateInstance)
    (si : OWDLStateInstance) (cs : list ContainerInstance) :
  wi_status (owdl_workflow_instance d) ∉ [W_CREATED; W_COMPLETED] ->
  sis d = pre ++ [si] ->
  status si <> S_CANCELLED ->
  reply_get (onedocker d) (calls (onedocker d))
    (map instance_id (containers si)) = Ok cs ->
  fst (get_status d) = Ok (owdl_workflow_instance (snd (get_status d)))
  /\ sis (snd (get_status d))
     = pre ++ [{| owdl_state := owdl_state si; containers := cs;
                  status := _get_state_status cs;
                  retry_num := retry_num si |}]
  /\ wi_status (owdl_workflow_instance (snd (get_status d)))
     = (if any_failed cs then W_FAILED
        else wi_status (owdl_workflow_instance d))
  /\ calls (onedocker (snd (get_status d)))
     = calls (onedocker d) ++ [GetContainers (map instance_id (containers si))].
Proof.
  intros H Hpre Hs Hr.
  assert (Hlast : last (sis d) = Some si) by (by rewrite Hpre, last_snoc).
  rewrite (get_status_ok d si cs) by done. simpl.
  rewrite Hpre, !alter_last_snoc, workflow_status_of_containers. done.
Qed.

(** X6: [get_status] on a workflow instance that is neither CREATED nor
    COMPLETED fails with NoStateStarted, the driver as it was, when there is
    no state instance; and when the backend's query raises, it raises the
    same and the workflow instance is as it was. *)
Theorem get_status_fails_cleanly (d : OWDLDriver) :
  wi_status (owdl_workflow_instance d) ∉ [W_CREATED; W_COMPLETED] ->
  (last (sis d) = None -> get_status d = (Raise NoStateStarted, d))
  /\ (forall si e,
        last (sis d) = Some si ->
        status si <> S_CANCELLED ->
        reply_get (onedocker d) (calls (onedocker d))
          (map instance_id (containers si)) = Raise e ->
        fst (get_status d) = Raise e
        /\ owdl_workflow_instance (snd (get_status d))
           = owdl_workflow_instance d).
Proof.
  intros H. split.
  - by apply get_status_no_state_instance.
  - intros si e Hlast Hs Hr.
    rewrite (get_status_backend_raises d si e) by done.
    simpl. by destruct d as [? ? []].
Qed.

(** ** retry, next and cancel_state on their other paths *)

(** X7: [retry] on a current state instance that is neither FAILED nor
    CANCELLED (and is under its retry limit, in a workflow that may be
    retried) returns without doing anything: the driver is as it was. *)
Theorem retry_does_nothing_unless_failed (d : OWDLDriver)
    (args : option (list string)) (si : OWDLStateInstance) :
  wi_status (owdl_workflow_instance d) ∉ [W_CREATED; W_CANCELLED; W_COMPLETED] ->
  last (sis d) = Some si ->
  retry_num si < retry_count (owdl_state si) ->
  status si = S_STARTED \/ status si = S_COMPLETED ->
  retry args d = (Ok tt, d).
Proof.
  intros H Hlast Hlim Hs. apply (retry_not_failed d args si); try done.
  destruct Hs as [-> | ->]; decide_by_compute.
Qed.

(** X8: [retry] checks the workflow status first: on a CREATED, CANCELLED or
    COMPLETED workflow instance it fails with the InvalidTransition of that
    guard whatever the state instances are; past that guard, with no state
    instance, it fails with NoStateStarted.  The driver is as it was in both
    cases. *)
Theorem retry_refused (d : OWDLDriver) (args : option (list string)) :
  (wi_status (owdl_workflow_instance d)
     ∈ [W_CREATED; W_CANCELLED; W_COMPLETED] ->
   exists e, InvalidTransition e = true /\ retry args d = (Raise e, d))
  /\ (wi_status (owdl_workflow_instance d)
        ∉ [W_CREATED; W_CANCELLED; W_COMPLETED] ->
      last (sis d) = None ->
      retry args d = (Raise NoStateStarted, d)).
Proof.
  split.
  - intros H. eexists. split; [|by apply retry_workflow_status]. reflexivity.
  - apply retry_no_state_instance.
Qed.

(** X9: when the completed current state names a next state that the
    workflow does not have, [next] raises the KeyError of the lookup and
    leaves the driver as it was. *)
Theorem next_unknown_state (d : OWDLDriver) (args : option (list string))
    (si : OWDLStateInstance) (key : string) :
  wi_status (owdl_workflow_instance d) = W_STARTED ->
  last (sis d) = Some si ->
  status si = S_COMPLETED ->
  end_ (owdl_state si) = false ->
  next_ (owdl_state si) = Some key ->
  states (owdl_workflow d) !! key = None ->
  next args d = (Raise (KeyError key), d).
Proof.
  intros Hw Hlast Hs He Hn Hk.
  by rewrite (next_runs d args si Hw Hlast Hs He), Hn, Hk.
Qed.

(** X10: when the completed current state names a next state of the workflow,
    the arguments fit it and the backend starts the containers, [next]
    returns, having appended a STARTED state instance of that next state
    with the containers and with the number of earlier attempts of it as
    retry number; the workflow status stays STARTED, and the backend got one
    start call, with the arguments merged onto the state's. *)
Theorem next_advances (d : OWDLDriver) (args : option (list string))
    (si : OWDLStateInstance) (key : string) (st : OWDLState)
    (cs : list ContainerInstance) :
  wi_status (owdl_workflow_instance d) = W_STARTED ->
  last (sis d) = Some si ->
  status si = S_COMPLETED ->
  end_ (owdl_state si) = false ->
  next_ (owdl_state si) = Some key ->
  states (owdl_workflow d) !! key = Some st ->
  args_fit st args = true ->
  reply_start (onedocker d) (calls (onedocker d)) (container_definition st)
    (package_name st) (merged_args st args) (timeout st) = Ok cs ->
  fst (next args d) = Ok tt
  /\ sis (snd (next args d))
     = sis d ++ [{| owdl_state := st; containers := cs; status := S_STARTED;
                    retry_num := Z.of_nat (attempts st (sis d)) |}]
  /\ wi_status (owdl_workflow_instance (snd (next args d))) = W_STARTED
  /\ calls (onedocker (snd (next args d)))
     = calls (onedocker d)
       ++ [StartContainers (container_definition st) (package_name st)
             (merged_args st args) (timeout st)].
Proof.
  intros Hw Hlast Hs He Hn Hk Hfit Hr.
  rewrite (next_runs d args si Hw Hlast Hs He), Hn, Hk.
  by rewrite (run_state_ok st args d cs).
Qed.

(** X11: on a STARTED workflow whose current state instance is STARTED,
    [cancel_state] assigns CANCELLED to that state instance, leaves the
    earlier ones and the workflow status as they are, and asks the backend
    once to stop the state instance's containers; the backend's reply is the
    outcome of the call, so the state instance reads CANCELLED even when the
    backend raises. *)
Theorem cancel_state_cancels (d : OWDLDriver) (pre : list OWDLStateInstance)
    (si : OWDLStateInstance) :
  wi_status (owdl_workflow_instance d) = W_STARTED ->
  sis d = pre ++ [si] ->
  status si = S_STARTED ->
  fst (cancel_state d)
  = reply_stop (onedocker d) (calls (onedocker d))
      (map instance_id (containers si))
  /\ sis (snd (cancel_state d)) = pre ++ [with_status S_CANCELLED si]
  /\ wi_status (owdl_workflow_instance (snd (cancel_state d))) = W_STARTED
  /\ calls (onedocker (snd (cancel_state d)))
     = calls (onedocker d)
       ++ [StopContainers (map instance_id (containers si))].
Proof.
  intros Hw Hpre Hs.
  assert (Hlast : last (sis d) = Some si) by (by rewrite Hpre, last_snoc).
  rewrite (cancel_state_runs d si) by done. simpl.
  by rewrite Hpre, alter_last_snoc.
Qed.

(** ** Invariants of the runs *)

Lemma get_state_status_not_cancelled (cs : list ContainerInstance) :
  _get_state_status cs <> S_CANCELLED.
Proof.
  unfold _get_state_status. rewrite get_state_status_loop_spec.
  by destruct (any_failed cs), (any_running cs).
Qed.

Ltac snoc_last :=
  repeat match goal with
  | H : last (sis ?d) = Some ?si |- _ =>
      let pre := fresh "pre" in
      let Hpre := fresh "Hpre" in
      destruct (last_snoc_inv _ _ H) as [pre Hpre]; clear H
  end.

Ltac simpl_sis :=
  simpl in *;
  repeat match goal with
  | Hpre : sis ?d = _ |- _ => rewrite !Hpre in *
  end;
  rewrite ?alter_last_snoc, ?last_snoc in *; simpl in *.

(** Case analysis on the workflow status, discarding the values that the
    hypotheses of the transition rule out. *)
Ltac status_cases d :=
  let Hw := fresh "Hw" in
  destruct (wi_status (owdl_workflow_instance d)) eqn:Hw;
  try discriminate;
  try (exfalso;
       match goal with
       | H : _ ∉ _ |- _ => apply H; decide_by_compute
       end).

Ltac not_nil :=
  let Hnil := fresh "Hnil" in
  intros Hnil;
  repeat (apply app_nil in Hnil as [? Hnil]);
  discriminate.

Lemma transition_created o d d' :
  transition o d d' ->
  (wi_status (owdl_workflow_instance d) = W_CREATED <-> sis d = []) ->
  (wi_status (owdl_workflow_instance d') = W_CREATED <-> sis d' = []).
Proof.
  intros Htr I. destruct Htr; try done; snoc_last; simpl_sis;
    rewrite ?workflow_status_of_containers;
    try match goal with |- context [any_failed ?cs] =>
      destruct (any_failed cs) end;
    status_cases d; (split; [done | not_nil]).
Qed.

Lemma transition_cancelled o d d' :
  transition o d d' ->
  (wi_status (owdl_workflow_instance d) = W_CANCELLED ->
   exists si, last (sis d) = Some si /\ status si = S_CANCELLED) ->
  (wi_status (owdl_workflow_instance d') = W_CANCELLED ->
   exists si, last (sis d') = Some si /\ status si = S_CANCELLED).
Proof.
  intros Htr I. destruct Htr; try done; snoc_last; simpl_sis;
    rewrite ?workflow_status_of_containers;
    try match goal with |- context [any_failed ?cs] =>
      destruct (any_failed cs) end;
    status_cases d; try done;
    try (intros _; eexists; split; [reflexivity|done]).
  all: try (destruct I as (? & [= <-] & ?); done).
Qed.

Lemma transition_completed o d d' :
  transition o d d' ->
  (wi_status (owdl_workflow_instance d) = W_COMPLETED ->
   exists si, last (sis d) = Some si /\ status si = S_COMPLETED
              /\ end_ (owdl_state si) = true) ->
  (wi_status (owdl_workflow_instance d') = W_COMPLETED ->
   exists si, last (sis d') = Some si /\ status si = S_COMPLETED
              /\ end_ (owdl_state si) = true).
Proof.
  intros Htr I. destruct Htr; try done; snoc_last; simpl_sis;
    rewrite ?workflow_status_of_containers;
    try match goal with |- context [any_failed ?cs] =>
      destruct (any_failed cs) end;
    status_cases d; try done;
    try (intros _; eexists; split; [reflexivity|done]).
Qed.

Lemma transition_failed o d d' :
  transition o d d' ->
  (forall si, last (sis d) = Some si -> status si = S_FAILED ->
     wi_status (owdl_workflow_instance d) = W_FAILED) ->
  (forall si, last (sis d') = Some si -> status si = S_FAILED ->
     wi_status (owdl_workflow_instance d') = W_FAILED).
Proof.
  intros Htr I. destruct Htr; try done; snoc_last; simpl_sis;
    try (intros ? [= <-] ?; simpl in *; try done).
  all: try (rewrite last_snoc; intros ? [= <-] ?; simpl in *; done).
  all: try (eapply I; [reflexivity|done]).
  - congruence.
  - by match goal with H : _get_state_status _ = S_FAILED |- _ =>
      rewrite H end.
Qed.

Lemma transition_states o d d' :
  transition o d d' ->
  (forall si, si ∈ sis d ->
     exists key, states (owdl_workflow d) !! key = Some (owdl_state si)) ->
  (forall si, si ∈ sis d' ->
     exists key, states (owdl_workflow d') !! key = Some (owdl_state si)).
Proof.
  intros Htr I. destruct Htr; try done; snoc_last; simpl_sis.
  all: intros x Hx; rewrite ?elem_of_app, ?list_elem_of_singleton in Hx.
  all: try match goal with
       | Hpre : sis ?d0 = ?pre ++ [?si] |- _ =>
           assert (exists key,
                     states (owdl_workflow d0) !! key = Some (owdl_state si))
             by (apply I; rewrite elem_of_app, list_elem_of_singleton; auto);
           assert (forall y, y ∈ pre ->
                     exists key,
                       states (owdl_workflow d0) !! key = Some (owdl_state y))
             by (intros y Hy; apply I; rewrite elem_of_app; auto)
       end.
  all: try match goal with
       | Hres : resolves _ _ _ |- _ =>
           unfold resolves in Hres;
           destruct (next_ (owdl_state _)) in Hres; subst
       end.
  all: repeat match goal with Hor : _ \/ _ |- _ => destruct Hor end;
    subst; simpl; eauto.
Qed.

Lemma all_but_last_snoc {A} (P : A -> Prop) (l : list A) (x : A) :
  (forall i y, (l ++ [x]) !! i = Some y ->
     (S i < length (l ++ [x]))%nat -> P y)
  <-> Forall P l.
Proof.
  rewrite Forall_lookup. split.
  - intros H i y Hi. pose proof (lookup_lt_Some _ _ _ Hi).
    apply (H i); [by rewrite lookup_app_l | rewrite length_app; simpl; lia].
  - intros H i y Hi Hlt. rewrite length_app in Hlt. simpl in Hlt.
    rewrite lookup_app_l in Hi by lia. by apply (H i).
Qed.

Lemma transition_superseded o d d' :
  transition o d d' ->
  (wi_status (owdl_workflow_instance d) = W_CREATED <-> sis d = []) ->
  (forall i si, sis d !! i = Some si -> (S i < length (sis d))%nat ->
     status si = S_STARTED \/ status si = S_COMPLETED) ->
  (forall i si, sis d' !! i = Some si -> (S i < length (sis d'))%nat ->
     status si = S_STARTED \/ status si = S_COMPLETED).
Proof.
  intros Htr I1 I. destruct Htr; try done.
  { apply I1 in H. simpl. rewrite H. intros [|i] x Hi Hlt; simpl in *; lia. }
  all: snoc_last; simpl_sis.
  all: rewrite (all_but_last_snoc
                  (fun x => status x = S_STARTED \/ status x = S_COMPLETED))
         in I.
  all: rewrite ?(all_but_last_snoc
                  (fun x => status x = S_STARTED \/ status x = S_COMPLETED));
    try done.
  all: rewrite Forall_app, Forall_singleton; simpl; auto.
Qed.

Lemma transition_well_formed o d d' :
  transition o d d' -> well_formed d -> well_formed d'.
Proof.
  intros Htr [I1 I2 I3 I4 I5 I6]. split.
  - by apply (transition_created o d d').
  - by apply (transition_cancelled o d d').
  - by apply (transition_completed o d d').
  - by apply (transition_states o d d').
  - by apply (transition_superseded o d d').
  - by apply (transition_failed o d d').
Qed.

Lemma reachable_well_formed (d : OWDLDriver) : reachable d -> well_formed d.
Proof.
  induction 1 as [svc repo i wf d Hinit | o d _ IH].
  - simpl in Hinit. destruct (repo_create repo _); [|done].
    injection Hinit as <-. split; simpl; try done.
    + intros si Hsi. by apply elem_of_nil in Hsi.
  - eapply transition_well_formed; [apply perform_transition | exact IH].
Qed.

(** ** What the transitions show *)

Lemma transition_status o d d' :
  transition o d d' ->
  wi_status (owdl_workflow_instance d') = wi_status (owdl_workflow_instance d)
  \/ (o = Start
      /\ wi_status (owdl_workflow_instance d) = W_CREATED
      /\ wi_status (owdl_workflow_instance d') = W_STARTED)
  \/ ((exists args, o = Next args)
      /\ wi_status (owdl_workflow_instance d) = W_STARTED
      /\ wi_status (owdl_workflow_instance d') = W_COMPLETED)
  \/ (o = GetStatus
      /\ wi_status (owdl_workflow_instance d) ∈ [W_STARTED; W_CANCELLED]
      /\ wi_status (owdl_workflow_instance d') = W_FAILED)
  \/ (o = CancelWorkflow
      /\ wi_status (owdl_workflow_instance d) = W_STARTED
      /\ wi_status (owdl_workflow_instance d') = W_CANCELLED).
Proof.
  intros Htr. destruct Htr; simpl; auto 10.
  - right; right; left. eauto.
  - rewrite workflow_status_of_containers.
    destruct (any_failed cs); [|auto].
    status_cases d; auto.
    + right; right; right; left. repeat split. decide_by_compute.
    + right; right; right; left. repeat split. decide_by_compute.
Qed.

Lemma transition_frozen o d d' :
  transition o d d' ->
  wi_status (owdl_workflow_instance d) = W_COMPLETED
  \/ (wi_status (owdl_workflow_instance d) = W_CANCELLED
      /\ exists si, last (sis d) = Some si /\ status si = S_CANCELLED) ->
  d' = d.
Proof.
  intros Htr Hfrozen. destruct Htr; try done; exfalso;
    destruct Hfrozen as [Hw | (Hw & si' & Hlast & Hs)];
    rewrite Hw in *; try discriminate;
    try (match goal with H : _ ∉ _ |- _ => apply H; decide_by_compute end).
  all: congruence.
Qed.

Lemma transition_sis o d d' :
  transition o d d' ->
  sis d' = sis d
  \/ (exists new, sis d' = sis d ++ [new])
  \/ (exists pre si si',
        sis d = pre ++ [si]
        /\ (sis d' = pre ++ [si'] \/ exists new, sis d' = pre ++ [si'; new])
        /\ owdl_state si' = owdl_state si
        /\ retry_num si' = retry_num si).
Proof.
  intros Htr. destruct Htr; snoc_last; simpl_sis; eauto.
  all: right; right; do 3 eexists; split; [reflexivity|];
    rewrite <- ?app_assoc; simpl; (split; [eauto|done]).
Qed.

Lemma transition_calls o d d' :
  transition o d d' ->
  reply_start (onedocker d') = reply_start (onedocker d)
  /\ reply_get (onedocker d') = reply_get (onedocker d)
  /\ reply_stop (onedocker d') = reply_stop (onedocker d)
  /\ (calls (onedocker d') = calls (onedocker d)
      \/ exists c, calls (onedocker d') = calls (onedocker d) ++ [c]
                   /\ backend_call_of o c = true).
Proof.
  intros Htr. destruct Htr; simpl; repeat split; eauto.
  all: try (right; eexists; split; [reflexivity|];
            try match goal with
            | H : _ = CancelState \/ _ = CancelWorkflow |- _ =>
                destruct H; subst
            end; reflexivity).
Qed.

Lemma transition_workflow o d d' :
  transition o d d' ->
  owdl_workflow d' = owdl_workflow d
  /\ wi_owdl_workflow (owdl_workflow_instance d')
     = wi_owdl_workflow (owdl_workflow_instance d)
  /\ wi_instance_id (owdl_workflow_instance d')
     = wi_instance_id (owdl_workflow_instance d).
Proof. intros Htr. by destruct Htr. Qed.

(** X12: a call changes the workflow status only in four ways: [start] from
    CREATED to STARTED, [next] from STARTED to COMPLETED, [get_status] from
    STARTED or CANCELLED to FAILED, and [cancel_workflow] from STARTED to
    CANCELLED.  [cancel_state] and [retry] never change it. *)
Theorem workflow_status_changes (o : operation) (d : OWDLDriver) :
  wi_status (owdl_workflow_instance (perform o d))
    <> wi_status (owdl_workflow_instance d) ->
  (o = Start
   /\ wi_status (owdl_workflow_instance d) = W_CREATED
   /\ wi_status (owdl_workflow_instance (perform o d)) = W_STARTED)
  \/ ((exists args, o = Next args)
      /\ wi_status (owdl_workflow_instance d) = W_STARTED
      /\ wi_status (owdl_workflow_instance (perform o d)) = W_COMPLETED)
  \/ (o = GetStatus
      /\ wi_status (owdl_workflow_instance d) ∈ [W_STARTED; W_CANCELLED]
      /\ wi_status (owdl_workflow_instance (perform o d)) = W_FAILED)
  \/ (o = CancelWorkflow
      /\ wi_status (owdl_workflow_instance d) = W_STARTED
      /\ wi_status (owdl_workflow_instance (perform o d)) = W_CANCELLED).
Proof.
  intros Hne.
  destruct (transition_status o d _ (perform_transition o d)) as [H|H];
    [done | exact H].
Qed.

(** X13: a COMPLETED workflow is final: every call, whatever it returns or
    raises, leaves the driver exactly as it was. *)
Theorem completed_is_final (o : operation) (d : OWDLDriver) :
  wi_status (owdl_workflow_instance d) = W_COMPLETED ->
  perform o d = d.
Proof.
  intros H. apply (transition_frozen o d); [apply perform_transition | auto].
Qed.

Lemma failed_step (o : operation) (d : OWDLDriver) :
  wi_status (owdl_workflow_instance d) = W_FAILED ->
  wi_status (owdl_workflow_instance (perform o d)) = W_FAILED.
Proof.
  intros H.
  destruct (transition_status o d _ (perform_transition o d))
    as [Hs | [(_ & Hs & _) | [(_ & Hs & _) | [(_ & _ & Hs) | (_ & Hs & _)]]]];
    congruence.
Qed.

(** X14: a FAILED workflow stays FAILED through any run of calls, also when
    a retry of the failed state goes through and that attempt completes; and
    [next] is refused on it, leaving the driver as it was. *)
Theorem failed_stays_failed (os : list operation) (d : OWDLDriver)
    (args : option (list string)) :
  wi_status (owdl_workflow_instance d) = W_FAILED ->
  wi_status (owdl_workflow_instance (perform_all os d)) = W_FAILED
  /\ exists e, next args (perform_all os d) = (Raise e, perform_all os d).
Proof.
  intros H.
  assert (Hall : wi_status (owdl_workflow_instance (perform_all os d))
                 = W_FAILED).
  { revert d H. induction os as [|o os IH]; intros d H; [done|].
    simpl. apply IH. by apply failed_step. }
  split; [exact Hall|].
  destruct (last (sis (perform_all os d))) as [si|] eqn:Hlast.
  - eexists. apply (next_guard _ args si Hlast). left. congruence.
  - eexists. by apply next_no_state_instance.
Qed.

(** X15: in a driver reached from a new workflow instance, a CANCELLED
    workflow is final: every call leaves the driver exactly as it was. *)
Theorem cancelled_is_final (o : operation) (d : OWDLDriver) :
  reachable d ->
  wi_status (owdl_workflow_instance d) = W_CANCELLED ->
  perform o d = d.
Proof.
  intros Hreach H. apply (transition_frozen o d); [apply perform_transition|].
  right. split; [done|]. by apply (wf_cancelled d (reachable_well_formed d Hreach)).
Qed.

(** X16: in a driver reached from a new workflow instance, there is a current
    state instance exactly when the workflow is no longer CREATED:
    [get_current_state_instance] fails with NoStateStarted on a CREATED
    workflow and returns the last state instance on any other. *)
Theorem current_state_instance_exists (d : OWDLDriver) :
  reachable d ->
  (wi_status (owdl_workflow_instance d) = W_CREATED ->
   sis d = [] /\ get_current_state_instance d = (Raise NoStateStarted, d))
  /\ (wi_status (owdl_workflow_instance d) <> W_CREATED ->
      exists si, last (sis d) = Some si
                 /\ get_current_state_instance d = (Ok si, d)).
Proof.
  intros Hreach. pose proof (wf_created d (reachable_well_formed d Hreach)) as I.
  split.
  - intros H. apply I in H. split; [done|].
    unfold_driver. simpl. by rewrite H.
  - intros H. destruct (last (sis d)) as [si|] eqn:Hlast.
    + exists si. split; [done|]. unfold_driver. simpl. by rewrite Hlast.
    + apply last_None in Hlast. by apply I in Hlast.
Qed.

(** X17: in a driver reached from a new workflow instance, every state
    instance is an attempt of a state of the driver's workflow: its
    definition is a value of the workflow's dictionary of states. *)
Theorem state_instances_of_workflow (d : OWDLDriver) (si : OWDLStateInstance) :
  reachable d ->
  si ∈ sis d ->
  exists key, states (owdl_workflow d) !! key = Some (owdl_state si).
Proof.
  intros Hreach. apply (wf_states d (reachable_well_formed d Hreach)).
Qed.

(** X18: no call removes, reorders or rewrites history: after any call the
    sequence is at most one state instance longer, every state instance is
    still at its place with its definition and retry number, and every state
    instance but the last is exactly as it was. *)
Theorem history_is_kept (o : operation) (d : OWDLDriver) :
  (length (sis d) <= length (sis (perform o d)) <= S (length (sis d)))%nat
  /\ forall i si,
       sis d !! i = Some si ->
       exists si',
         sis (perform o d) !! i = Some si'
         /\ owdl_state si' = owdl_state si
         /\ retry_num si' = retry_num si
         /\ ((S i < length (sis d))%nat -> si' = si).
Proof.
  destruct (transition_sis o d _ (perform_transition o d))
    as [-> | [[new ->] | (pre & x & x' & Hpre & Hshape & Hst & Hnum)]].
  - split; [lia|]. intros i si Hi. by exists si.
  - rewrite length_app. simpl. split; [lia|].
    intros i si Hi. exists si. by rewrite lookup_app_l by (by eapply lookup_lt_Some).
  - rewrite Hpre.
    assert (Hlook : forall l', forall i si,
              (pre ++ [x]) !! i = Some si ->
              exists si',
                (pre ++ x' :: l') !! i = Some si'
                /\ owdl_state si' = owdl_state si
                /\ retry_num si' = retry_num si
                /\ ((S i < length (pre ++ [x]))%nat -> si' = si)).
    { intros l' i si Hi. rewrite length_app. simpl.
      destruct (decide (i < length pre)%nat) as [Hlt|Hge].
      - rewrite lookup_app_l in Hi by done. exists si.
        by rewrite lookup_app_l by done.
      - pose proof (lookup_lt_Some _ _ _ Hi) as Hlen.
        rewrite length_app in Hlen. simpl in Hlen.
        assert (i = length pre) as -> by lia.
        rewrite list_lookup_middle in Hi by done. injection Hi as <-.
        exists x'. rewrite list_lookup_middle by done.
        repeat split; try done. lia. }
    destruct Hshape as [-> | [new ->]];
      (split; [rewrite !length_app; simpl; lia | apply Hlook]).
Qed.

(** X19: a call makes at most one call to the backend, of the operation of
    its method (start for start, next and retry; get for get_status; stop
    for cancel_state and cancel_workflow); the log of earlier calls is
    kept. *)
Theorem at_most_one_backend_call (o : operation) (d : OWDLDriver) :
  calls (onedocker (perform o d)) = calls (onedocker d)
  \/ exists c, calls (onedocker (perform o d)) = calls (onedocker d) ++ [c]
               /\ backend_call_of o c = true.
Proof.
  apply (transition_calls o d _ (perform_transition o d)).
Qed.

(** X20: in a driver reached from a new workflow instance,
    [get_current_retry_num] returns one less than the number of state
    instances of the current state's definition. *)
Theorem current_retry_num_counts_attempts (d : OWDLDriver)
    (si : OWDLStateInstance) :
  reachable d ->
  last (sis d) = Some si ->
  get_current_retry_num d
  = (Ok (Z.of_nat (attempts (owdl_state si) (sis d)) - 1), d).
Proof.
  intros Hreach Hlast. unfold_driver. simpl. rewrite Hlast. simpl.
  apply reachable_retry_nums in Hreach.
  destruct (last_snoc_inv _ _ Hlast) as [pre Hpre]. rewrite Hpre in *.
  apply retry_nums_snoc in Hreach as [_ ->].
  rewrite attempts_app, attempts_one, OWDLState_eq_refl.
  do 2 f_equal. lia.
Qed.

(** X21: in a driver reached from a new workflow instance, a state instance
    that is no longer the current one reads STARTED or COMPLETED, never
    FAILED or CANCELLED: [next] moves on only from a COMPLETED one, and
    [retry] assigns STARTED to the one it retries. *)
Theorem superseded_state_instances (d : OWDLDriver) (i : nat)
    (si : OWDLStateInstance) :
  reachable d ->
  sis d !! i = Some si ->
  (S i < length (sis d))%nat ->
  status si = S_STARTED \/ status si = S_COMPLETED.
Proof.
  intros Hreach. apply (wf_superseded d (reachable_well_formed d Hreach)).
Qed.

(** X22: in a driver reached from a new workflow instance, the workflow
    status agrees with the current state instance: a COMPLETED workflow has
    a COMPLETED current state instance of a state flagged [end], a CANCELLED
    workflow a CANCELLED one, and a FAILED current state instance means a
    FAILED workflow. *)
Theorem workflow_status_reflects_current (d : OWDLDriver) :
  reachable d ->
  (wi_status (owdl_workflow_instance d) = W_COMPLETED ->
   exists si, last (sis d) = Some si /\ status si = S_COMPLETED
              /\ end_ (owdl_state si) = true)
  /\ (wi_status (owdl_workflow_instance d) = W_CANCELLED ->
      exists si, last (sis d) = Some si /\ status si = S_CANCELLED)
  /\ (forall si, last (sis d) = Some si -> status si = S_FAILED ->
        wi_status (owdl_workflow_instance d) = W_FAILED).
Proof.
  intros Hreach. destruct (reachable_well_formed d Hreach). auto.
Qed.

(** ** State execution, cancelling and the constructor *)

(** X23: a state cancelled by [cancel_state] can be retried: when the
    backend stops the containers, [cancel_state] returns, and a [retry]
    after it (under the retry limit, with arguments that fit and a backend
    that starts the containers) returns too, with the cancelled state
    instance assigned STARTED and a new attempt of its definition appended;
    the workflow is STARTED throughout. *)
Theorem cancelled_state_can_be_retried (d : OWDLDriver)
    (pre : list OWDLStateInstance) (si : OWDLStateInstance)
    (args : option (list string)) (cs : list ContainerInstance) :
  wi_status (owdl_workflow_instance d) = W_STARTED ->
  sis d = pre ++ [si] ->
  status si = S_STARTED ->
  retry_num si < retry_count (owdl_state si) ->
  reply_stop (onedocker d) (calls (onedocker d))
    (map instance_id (containers si)) = Ok tt ->
  args_fit (owdl_state si) args = true ->
  reply_start (onedocker d)
    (calls (onedocker d) ++ [StopContainers (map instance_id (containers si))])
    (container_definition (owdl_state si)) (package_name (owdl_state si))
    (merged_args (owdl_state si) args) (timeout (owdl_state si)) = Ok cs ->
  fst (cancel_state d) = Ok tt
  /\ fst (retry args (snd (cancel_state d))) = Ok tt
  /\ sis (snd (retry args (snd (cancel_state d))))
     = pre ++ [ with_status S_STARTED si;
                {| owdl_state := owdl_state si; containers := cs;
                   status := S_STARTED;
                   retry_num :=
                     Z.of_nat (attempts (owdl_state si) (sis d)) |} ]
  /\ wi_status (owdl_workflow_instance (snd (retry args (snd (cancel_state d)))))
     = W_STARTED.
Proof.
  intros Hw Hpre Hs Hlim Hstop Hfit Hstart.
  assert (Hlast : last (sis d) = Some si) by (by rewrite Hpre, last_snoc).
  rewrite (cancel_state_runs d si Hw Hlast Hs), Hstop. simpl.
  split; [done|].
  set (d1 := with_onedocker _ _).
  assert (Hsis1 : sis d1 = pre ++ [with_status S_CANCELLED si])
    by (simpl; by rewrite Hpre, alter_last_snoc).
  assert (Hrun : retry args d1
                 = _run_state (owdl_state si) args (current_restarted d1)).
  { apply (retry_runs d1 args (with_status S_CANCELLED si)); simpl.
    - rewrite Hw. decide_by_compute.
    - by rewrite Hpre, alter_last_snoc, last_snoc.
    - done.
    - decide_by_compute. }
  rewrite Hrun, (run_state_ok _ _ _ cs); [|done|exact Hstart].
  simpl. rewrite Hpre, !alter_last_snoc, <- app_assoc. simpl.
  repeat split; try done.
  do 4 f_equal.
  by rewrite !attempts_app, !attempts_one.
Qed.

(** X24: [_run_state] records a state instance only when the backend has
    started the containers: when the start call raises, [_run_state] raises
    the same, the workflow instance is as it was, and the call is on the
    backend's log. *)
Theorem run_state_backend_failure (st : OWDLState)
    (args : option (list string)) (d : OWDLDriver) (e : exn) :
  args_fit st args = true ->
  reply_start (onedocker d) (calls (onedocker d)) (container_definition st)
    (package_name st) (merged_args st args) (timeout st) = Raise e ->
  fst (_run_state st args d) = Raise e
  /\ owdl_workflow_instance (snd (_run_state st args d))
     = owdl_workflow_instance d
  /\ calls (onedocker (snd (_run_state st args d)))
     = calls (onedocker d)
       ++ [StartContainers (container_definition st) (package_name st)
             (merged_args st args) (timeout st)].
Proof.
  intros Hfit Hr. rewrite (run_state_backend_raises st args d e) by done.
  simpl. by destruct d as [? ? []].
Qed.

(** X25: the arguments [_run_state] hands to the backend: with arguments
    given that pass the length check, there are as many as the state's base
    arguments, and each is the base argument, a space and the given argument
    at the same place; with no arguments, or an empty list of them, they are
    the base arguments. *)
Theorem run_state_arguments (st : OWDLState) (args : option (list string))
    (d : OWDLDriver) :
  args_fit st args = true ->
  exists margs,
    calls (onedocker (snd (_run_state st args d)))
    = calls (onedocker d)
      ++ [StartContainers (container_definition st) (package_name st)
            margs (timeout st)]
    /\ length margs = length (cmd_args_list st)
    /\ (truthy args = false -> margs = cmd_args_list st)
    /\ (truthy args = true ->
        forall i old new,
          cmd_args_list st !! i = Some old ->
          default [] args !! i = Some new ->
          margs !! i = Some (old +:+ " " +:+ new)).
Proof.
  intros Hfit. exists (merged_args st args). split; [|split; [|split]].
  - destruct (reply_start (onedocker d) (calls (onedocker d))
                (container_definition st) (package_name st)
                (merged_args st args) (timeout st)) as [cs|e] eqn:Hr.
    + by rewrite (run_state_ok st args d cs).
    + by rewrite (run_state_backend_raises st args d e).
  - unfold merged_args, args_fit in *. destruct (truthy args); [|done].
    simpl in Hfit. apply Nat.eqb_eq in Hfit.
    rewrite length_zip_with. lia.
  - intros Ht. unfold merged_args. by rewrite Ht.
  - intros Ht i old new Hold Hnew. unfold merged_args. rewrite Ht.
    by rewrite lookup_zip_with, Hold, Hnew.
Qed.

(** X26: [_get_state_status] of two lists of containers put together is the
    worse of their two statuses (FAILED over STARTED over COMPLETED), and it
    is never CANCELLED. *)
Theorem get_state_status_app (cs1 cs2 : list ContainerInstance) :
  _get_state_status (cs1 ++ cs2)
  = worse (_get_state_status cs1) (_get_state_status cs2)
  /\ _get_state_status cs1 <> S_CANCELLED.
Proof.
  split; [|apply get_state_status_not_cancelled].
  unfold _get_state_status. rewrite !get_state_status_loop_spec.
  unfold any_failed, any_running. rewrite !existsb_app. simpl.
  by destruct (existsb _ cs1), (existsb _ cs2), (existsb _ cs1),
    (existsb _ cs2).
Qed.

Lemma perform_all_workflow (os : list operation) (d : OWDLDriver) :
  owdl_workflow (perform_all os d) = owdl_workflow d
  /\ wi_owdl_workflow (owdl_workflow_instance (perform_all os d))
     = wi_owdl_workflow (owdl_workflow_instance d)
  /\ wi_instance_id (owdl_workflow_instance (perform_all os d))
     = wi_instance_id (owdl_workflow_instance d).
Proof.
  revert d. induction os as [|o os IH]; intros d; [done|].
  simpl. destruct (IH (perform o d)) as (-> & -> & ->).
  apply (transition_workflow o d _ (perform_transition o d)).
Qed.

(** X27: a driver that [__init__] returned, for a new workflow or for an
    instance read from the repository, has the workflow of its workflow
    instance as its workflow, and keeps it so: no run of calls changes the
    driver's workflow, the instance's workflow or the instance's id. *)
Theorem workflow_is_fixed (svc : OneDockerService)
    (repo : option LocalOWDLWorkflowInstanceRepository) (id : string)
    (wf : option OWDLWorkflow) (d : OWDLDriver) (os : list operation) :
  __init__ svc repo id wf = Ok d ->
  owdl_workflow (perform_all os d)
  = wi_owdl_workflow (owdl_workflow_instance (perform_all os d))
  /\ owdl_workflow (perform_all os d) = owdl_workflow d
  /\ wi_instance_id (owdl_workflow_instance (perform_all os d))
     = wi_instance_id (owdl_workflow_instance d).
Proof.
  intros Hinit. destruct (perform_all_workflow os d) as (-> & -> & ->).
  repeat split. unfold __init__ in Hinit.
  destruct repo as [repo|]; [|done]. destruct wf as [wf|].
  - destruct (repo_create repo _); [|done]. by injection Hinit as <-.
  - destruct (repo_read repo id); [|done]. by injection Hinit as <-.
Qed.

(** ** The further properties on the sample workflows *)

Lemma started_A_reachable : reachable Sample.started_A.
Proof. apply reachable_step, fresh_reachable. Qed.

Lemma cancelled_reachable : reachable Scenario.cancelled.
Proof. apply reachable_step, started_A_reachable. Qed.

Lemma closed_reachable : reachable Scenario.closed.
Proof. do 5 apply reachable_step. apply fresh_reachable. Qed.

Lemma start_starts_workflow_witness :
  wi_status (owdl_workflow_instance (Sample.fresh Sample.workflow CI_STARTED))
  = W_CREATED
  /\ states Sample.workflow !! starts_at Sample.workflow = Some Sample.A
  /\ sis (snd (start (Sample.fresh Sample.workflow CI_STARTED)))
     = [] ++ [Scenario.attempt Sample.A (Z.of_nat 0)]
  /\ wi_status
       (owdl_workflow_instance
          (snd (start (Sample.fresh Sample.workflow CI_STARTED))))
     = W_STARTED.
Proof.
  assert (H1 : wi_status
                 (owdl_workflow_instance
                    (Sample.fresh Sample.workflow CI_STARTED)) = W_CREATED)
    by reflexivity.
  assert (H2 : states (owdl_workflow (Sample.fresh Sample.workflow CI_STARTED))
               !! starts_at
                    (owdl_workflow (Sample.fresh Sample.workflow CI_STARTED))
               = Some Sample.A) by (vm_compute; reflexivity).
  split; [exact H1|]. split; [exact H2|].
  destruct (start_starts_workflow (Sample.fresh Sample.workflow CI_STARTED)
              Sample.A [Scenario.container CI_STARTED] H1 H2 eq_refl)
    as (_ & Hs & Hl & _).
  split; [exact Hl | exact Hs].
Defined.

Lemma start_only_once_witness :
  (wi_status (owdl_workflow_instance Sample.started_A) <> W_CREATED
   /\ exists e, InvalidTransition e = true
                /\ start Sample.started_A = (Raise e, Sample.started_A))
  /\ (fst (start (Sample.fresh Sample.workflow CI_STARTED)) = Ok tt
      /\ exists e,
           InvalidTransition e = true
           /\ start (snd (start (Sample.fresh Sample.workflow CI_STARTED)))
              = (Raise e, snd (start (Sample.fresh Sample.workflow CI_STARTED)))).
Proof.
  assert (H1 : wi_status (owdl_workflow_instance Sample.started_A) <> W_CREATED)
    by (vm_compute; discriminate).
  assert (H2 : fst (start (Sample.fresh Sample.workflow CI_STARTED)) = Ok tt)
    by (vm_compute; reflexivity).
  split.
  - split; [exact H1|]. exact (proj1 (start_only_once Sample.started_A) H1).
  - split; [exact H2|].
    exact (proj2 (start_only_once (Sample.fresh Sample.workflow CI_STARTED))
             tt H2).
Defined.

Lemma start_fails_cleanly_witness :
  (states Scenario.headless !! starts_at Scenario.headless = None
   /\ start (Sample.fresh Scenario.headless CI_STARTED)
      = (Raise (KeyError "Z"), Sample.fresh Scenario.headless CI_STARTED))
  /\ (fst (start (Scenario.on_backend Scenario.down
                    (Sample.fresh Sample.workflow CI_STARTED)))
      = Raise (BackendError "down")
      /\ owdl_workflow_instance
           (snd (start (Scenario.on_backend Scenario.down
                          (Sample.fresh Sample.workflow CI_STARTED))))
         = owdl_workflow_instance (Sample.fresh Sample.workflow CI_STARTED)).
Proof.
  assert (H1 : states (owdl_workflow (Sample.fresh Scenario.headless CI_STARTED))
               !! starts_at
                    (owdl_workflow (Sample.fresh Scenario.headless CI_STARTED))
               = None) by (vm_compute; reflexivity).
  split.
  - split; [exact H1|].
    exact (proj1 (start_fails_cleanly
                    (Sample.fresh Scenario.headless CI_STARTED) eq_refl) H1).
  - destruct (proj2 (start_fails_cleanly
                       (Scenario.on_backend Scenario.down
                          (Sample.fresh Sample.workflow CI_STARTED)) eq_refl)
                Sample.A (BackendError "down")) as (Hf & Hi & _);
      [vm_compute; reflexivity | reflexivity |].
    split; [exact Hf | exact Hi].
Defined.

Lemma get_status_leaves_alone_witness :
  wi_status (owdl_workflow_instance Scenario.closed) ∈ [W_CREATED; W_COMPLETED]
  /\ get_status Scenario.closed
     = (Ok (owdl_workflow_instance Scenario.closed), Scenario.closed).
Proof.
  assert (H1 : wi_status (owdl_workflow_instance Scenario.closed)
               ∈ [W_CREATED; W_COMPLETED]) by decide_by_compute.
  split; [exact H1|].
  exact (get_status_leaves_alone Scenario.closed (or_introl H1)).
Defined.

Lemma get_status_refreshes_witness :
  sis (perform Start (Sample.fresh Sample.workflow CI_FAILED))
  = [] ++ [Scenario.attempt Sample.A 0]
  /\ sis (snd (get_status
                 (perform Start (Sample.fresh Sample.workflow CI_FAILED))))
     = [] ++ [{| owdl_state := Sample.A;
                 containers := [Scenario.container CI_FAILED];
                 status := _get_state_status [Scenario.container CI_FAILED];
                 retry_num := 0 |}]
  /\ wi_status
       (owdl_workflow_instance
          (snd (get_status
                  (perform Start (Sample.fresh Sample.workflow CI_FAILED)))))
     = W_FAILED.
Proof.
  assert (H1 : sis (perform Start (Sample.fresh Sample.workflow CI_FAILED))
               = [] ++ [Scenario.attempt Sample.A 0])
    by (vm_compute; reflexivity).
  split; [exact H1|].
  destruct (get_status_refreshes
              (perform Start (Sample.fresh Sample.workflow CI_FAILED))
              [] (Scenario.attempt Sample.A 0) [Scenario.container CI_FAILED])
    as (_ & Hl & Hs & _);
    [decide_by_compute | exact H1 | vm_compute; discriminate
    | vm_compute; reflexivity |].
  split; [exact Hl | exact Hs].
Defined.

Lemma get_status_fails_cleanly_witness :
  (wi_status (owdl_workflow_instance
                (Scenario.on_backend Scenario.down Sample.started_A))
     ∉ [W_CREATED; W_COMPLETED])
  /\ fst (get_status (Scenario.on_backend Scenario.down Sample.started_A))
     = Raise (BackendError "down")
  /\ owdl_workflow_instance
       (snd (get_status (Scenario.on_backend Scenario.down Sample.started_A)))
     = owdl_workflow_instance Sample.started_A.
Proof.
  assert (H1 : wi_status (owdl_workflow_instance
                            (Scenario.on_backend Scenario.down Sample.started_A))
               ∉ [W_CREATED; W_COMPLETED]) by decide_by_compute.
  split; [exact H1|].
  apply (proj2 (get_status_fails_cleanly
                  (Scenario.on_backend Scenario.down Sample.started_A) H1)
           (Scenario.attempt Sample.A 0) (BackendError "down"));
    [vm_compute; reflexivity | vm_compute; discriminate
    | vm_compute; reflexivity].
Defined.

Lemma retry_does_nothing_unless_failed_witness :
  last (sis Sample.started_A) = Some (Scenario.attempt Sample.A 0)
  /\ status (Scenario.attempt Sample.A 0) = S_STARTED
  /\ retry None Sample.started_A = (Ok tt, Sample.started_A).
Proof.
  assert (H1 : last (sis Sample.started_A) = Some (Scenario.attempt Sample.A 0))
    by (vm_compute; reflexivity).
  split; [exact H1|]. split; [reflexivity|].
  apply (retry_does_nothing_unless_failed Sample.started_A None
           (Scenario.attempt Sample.A 0));
    [decide_by_compute | exact H1 | vm_compute; reflexivity
    | left; reflexivity].
Defined.

Lemma retry_refused_witness :
  wi_status (owdl_workflow_instance Scenario.cancelled)
    ∈ [W_CREATED; W_CANCELLED; W_COMPLETED]
  /\ exists e, InvalidTransition e = true
               /\ retry None Scenario.cancelled = (Raise e, Scenario.cancelled).
Proof.
  assert (H1 : wi_status (owdl_workflow_instance Scenario.cancelled)
               ∈ [W_CREATED; W_CANCELLED; W_COMPLETED]) by decide_by_compute.
  split; [exact H1|].
  exact (proj1 (retry_refused Scenario.cancelled None) H1).
Defined.

Lemma next_unknown_state_witness :
  last (sis (Scenario.completed_A Scenario.dangling)) = Some Scenario.done_A
  /\ next_ (owdl_state Scenario.done_A) = Some "B"
  /\ states Scenario.dangling !! "B" = None
  /\ next None (Scenario.completed_A Scenario.dangling)
     = (Raise (KeyError "B"), Scenario.completed_A Scenario.dangling).
Proof.
  assert (H1 : last (sis (Scenario.completed_A Scenario.dangling))
               = Some Scenario.done_A) by (vm_compute; reflexivity).
  assert (H2 : states (owdl_workflow (Scenario.completed_A Scenario.dangling))
               !! "B" = None) by (vm_compute; reflexivity).
  split; [exact H1|]. split; [reflexivity|]. split; [exact H2|].
  apply (next_unknown_state (Scenario.completed_A Scenario.dangling) None
           Scenario.done_A "B");
    [vm_compute; reflexivity | exact H1 | reflexivity | reflexivity
    | reflexivity | exact H2].
Defined.

Lemma next_advances_witness :
  last (sis (Scenario.completed_A Sample.workflow)) = Some Scenario.done_A
  /\ states Sample.workflow !! "B" = Some Sample.B
  /\ args_fit Sample.B (Some ["--threads=4"]) = true
  /\ sis (snd (next (Some ["--threads=4"])
                 (Scenario.completed_A Sample.workflow)))
     = sis (Scenario.completed_A Sample.workflow)
       ++ [{| owdl_state := Sample.B;
              containers := [Scenario.container CI_STARTED];
              status := S_STARTED;
              retry_num :=
                Z.of_nat (attempts Sample.B
                            (sis (Scenario.completed_A Sample.workflow))) |}]
  /\ calls (onedocker (snd (next (Some ["--threads=4"])
                              (Scenario.completed_A Sample.workflow))))
     = calls (onedocker (Scenario.completed_A Sample.workflow))
       ++ [StartContainers "pce" "aggregate" ["--input=b --threads=4"] None].
Proof.
  assert (H1 : last (sis (Scenario.completed_A Sample.workflow))
               = Some Scenario.done_A) by (vm_compute; reflexivity).
  assert (H2 : states (owdl_workflow (Scenario.completed_A Sample.workflow))
               !! "B" = Some Sample.B) by (vm_compute; reflexivity).
  split; [exact H1|]. split; [exact H2|]. split; [reflexivity|].
  destruct (next_advances (Scenario.completed_A Sample.workflow)
              (Some ["--threads=4"]) Scenario.done_A "B" Sample.B
              [Scenario.container CI_STARTED])
    as (_ & Hl & _ & Hc);
    [vm_compute; reflexivity | exact H1 | reflexivity | reflexivity
    | reflexivity | exact H2 | reflexivity | reflexivity |].
  split; [exact Hl | exact Hc].
Defined.

Lemma cancel_state_cancels_witness :
  sis Sample.started_A = [] ++ [Scenario.attempt Sample.A 0]
  /\ sis (snd (cancel_state Sample.started_A))
     = [] ++ [with_status S_CANCELLED (Scenario.attempt Sample.A 0)]
  /\ wi_status (owdl_workflow_instance (snd (cancel_state Sample.started_A)))
     = W_STARTED.
Proof.
  assert (H1 : sis Sample.started_A = [] ++ [Scenario.attempt Sample.A 0])
    by (vm_compute; reflexivity).
  split; [exact H1|].
  destruct (cancel_state_cancels Sample.started_A []
              (Scenario.attempt Sample.A 0))
    as (_ & Hl & Hs & _);
    [vm_compute; reflexivity | exact H1 | reflexivity |].
  split; [exact Hl | exact Hs].
Defined.

Lemma workflow_status_changes_witness :
  wi_status (owdl_workflow_instance
               (perform Start (Sample.fresh Sample.workflow CI_STARTED)))
    <> wi_status (owdl_workflow_instance
                    (Sample.fresh Sample.workflow CI_STARTED))
  /\ ((Start = Start
       /\ wi_status (owdl_workflow_instance
                       (Sample.fresh Sample.workflow CI_STARTED)) = W_CREATED
       /\ wi_status (owdl_workflow_instance
                       (perform Start
                          (Sample.fresh Sample.workflow CI_STARTED)))
          = W_STARTED)
      \/ ((exists args, Start = Next args)
          /\ wi_status (owdl_workflow_instance
                          (Sample.fresh Sample.workflow CI_STARTED))
             = W_STARTED
          /\ wi_status (owdl_workflow_instance
                          (perform Start
                             (Sample.fresh Sample.workflow CI_STARTED)))
             = W_COMPLETED)
      \/ (Start = GetStatus
          /\ wi_status (owdl_workflow_instance
                          (Sample.fresh Sample.workflow CI_STARTED))
             ∈ [W_STARTED; W_CANCELLED]
          /\ wi_status (owdl_workflow_instance
                          (perform Start
                             (Sample.fresh Sample.workflow CI_STARTED)))
             = W_FAILED)
      \/ (Start = CancelWorkflow
          /\ wi_status (owdl_workflow_instance
                          (Sample.fresh Sample.workflow CI_STARTED))
             = W_STARTED
          /\ wi_status (owdl_workflow_instance
                          (perform Start
                             (Sample.fresh Sample.workflow CI_STARTED)))
             = W_CANCELLED)).
Proof.
  assert (H1 : wi_status (owdl_workflow_instance
                            (perform Start
                               (Sample.fresh Sample.workflow CI_STARTED)))
               <> wi_status (owdl_workflow_instance
                               (Sample.fresh Sample.workflow CI_STARTED)))
    by (vm_compute; discriminate).
  split; [exact H1|].
  exact (workflow_status_changes Start
           (Sample.fresh Sample.workflow CI_STARTED) H1).
Defined.

Lemma completed_is_final_witness :
  wi_status (owdl_workflow_instance Scenario.closed) = W_COMPLETED
  /\ perform (Retry None) Scenario.closed = Scenario.closed
  /\ perform (Next None) Scenario.closed = Scenario.closed.
Proof.
  assert (H1 : wi_status (owdl_workflow_instance Scenario.closed) = W_COMPLETED)
    by (vm_compute; reflexivity).
  split; [exact H1|]. split.
  - exact (completed_is_final (Retry None) Scenario.closed H1).
  - exact (completed_is_final (Next None) Scenario.closed H1).
Defined.

Lemma failed_stays_failed_witness :
  wi_status (owdl_workflow_instance Sample.failed_A) = W_FAILED
  /\ wi_status
       (owdl_workflow_instance
          (perform_all [Retry None; GetStatus] Sample.failed_A)) = W_FAILED
  /\ exists e,
       next None (perform_all [Retry None; GetStatus] Sample.failed_A)
       = (Raise e, perform_all [Retry None; GetStatus] Sample.failed_A).
Proof.
  assert (H1 : wi_status (owdl_workflow_instance Sample.failed_A) = W_FAILED)
    by (vm_compute; reflexivity).
  split; [exact H1|].
  exact (failed_stays_failed [Retry None; GetStatus] Sample.failed_A None H1).
Defined.

Lemma cancelled_is_final_witness :
  reachable Scenario.cancelled
  /\ wi_status (owdl_workflow_instance Scenario.cancelled) = W_CANCELLED
  /\ perform GetStatus Scenario.cancelled = Scenario.cancelled
  /\ perform (Retry None) Scenario.cancelled = Scenario.cancelled.
Proof.
  assert (H1 : wi_status (owdl_workflow_instance Scenario.cancelled)
               = W_CANCELLED) by (vm_compute; reflexivity).
  split; [exact cancelled_reachable|]. split; [exact H1|]. split.
  - exact (cancelled_is_final GetStatus Scenario.cancelled
             cancelled_reachable H1).
  - exact (cancelled_is_final (Retry None) Scenario.cancelled
             cancelled_reachable H1).
Defined.

Lemma current_state_instance_exists_witness :
  reachable Sample.started_A
  /\ wi_status (owdl_workflow_instance Sample.started_A) <> W_CREATED
  /\ exists si, last (sis Sample.started_A) = Some si
                /\ get_current_state_instance Sample.started_A
                   = (Ok si, Sample.started_A).
Proof.
  assert (H1 : wi_status (owdl_workflow_instance Sample.started_A) <> W_CREATED)
    by (vm_compute; discriminate).
  split; [exact started_A_reachable|]. split; [exact H1|].
  exact (proj2 (current_state_instance_exists Sample.started_A
                  started_A_reachable) H1).
Defined.

Lemma state_instances_of_workflow_witness :
  reachable Sample.retried_A
  /\ Sample.second_A ∈ sis Sample.retried_A
  /\ exists key,
       states (owdl_workflow Sample.retried_A) !! key
       = Some (owdl_state Sample.second_A).
Proof.
  assert (H1 : Sample.second_A ∈ sis Sample.retried_A)
    by (apply list_elem_of_lookup; exists 1%nat; vm_compute; reflexivity).
  split; [exact retried_A_reachable|]. split; [exact H1|].
  exact (state_instances_of_workflow Sample.retried_A Sample.second_A
           retried_A_reachable H1).
Defined.

Lemma history_is_kept_witness :
  sis Sample.failed_A !! 0%nat = Some Sample.first_A
  /\ exists si',
       sis (perform (Retry None) Sample.failed_A) !! 0%nat = Some si'
       /\ owdl_state si' = owdl_state Sample.first_A
       /\ retry_num si' = retry_num Sample.first_A
       /\ ((1 < length (sis Sample.failed_A))%nat -> si' = Sample.first_A).
Proof.
  assert (H1 : sis Sample.failed_A !! 0%nat = Some Sample.first_A)
    by (vm_compute; reflexivity).
  split; [exact H1|].
  exact (proj2 (history_is_kept (Retry None) Sample.failed_A) 0%nat
           Sample.first_A H1).
Defined.

Lemma current_retry_num_counts_attempts_witness :
  reachable Sample.retried_A
  /\ last (sis Sample.retried_A) = Some Sample.second_A
  /\ get_current_retry_num Sample.retried_A
     = (Ok (Z.of_nat (attempts (owdl_state Sample.second_A)
                        (sis Sample.retried_A)) - 1),
        Sample.retried_A).
Proof.
  assert (H1 : last (sis Sample.retried_A) = Some Sample.second_A)
    by (vm_compute; reflexivity).
  split; [exact retried_A_reachable|]. split; [exact H1|].
  exact (current_retry_num_counts_attempts Sample.retried_A Sample.second_A
           retried_A_reachable H1).
Defined.

Lemma superseded_state_instances_witness :
  reachable Sample.retried_A
  /\ sis Sample.retried_A !! 0%nat
     = Some (with_status S_STARTED Sample.first_A)
  /\ (1 < length (sis Sample.retried_A))%nat
  /\ (status (with_status S_STARTED Sample.first_A) = S_STARTED
      \/ status (with_status S_STARTED Sample.first_A) = S_COMPLETED).
Proof.
  assert (H1 : sis Sample.retried_A !! 0%nat
               = Some (with_status S_STARTED Sample.first_A))
    by (vm_compute; reflexivity).
  assert (H2 : (1 < length (sis Sample.retried_A))%nat)
    by (vm_compute; lia).
  split; [exact retried_A_reachable|]. split; [exact H1|]. split; [exact H2|].
  exact (superseded_state_instances Sample.retried_A 0
           (with_status S_STARTED Sample.first_A) retried_A_reachable H1 H2).
Defined.

Lemma workflow_status_reflects_current_witness :
  reachable Scenario.closed
  /\ wi_status (owdl_workflow_instance Scenario.closed) = W_COMPLETED
  /\ exists si, last (sis Scenario.closed) = Some si
                /\ status si = S_COMPLETED
                /\ end_ (owdl_state si) = true.
Proof.
  assert (H1 : wi_status (owdl_workflow_instance Scenario.closed) = W_COMPLETED)
    by (vm_compute; reflexivity).
  split; [exact closed_reachable|]. split; [exact H1|].
  exact (proj1 (workflow_status_reflects_current Scenario.closed
                  closed_reachable) H1).
Defined.

Lemma cancelled_state_can_be_retried_witness :
  sis Sample.started_A = [] ++ [Scenario.attempt Sample.A 0]
  /\ retry_num (Scenario.attempt Sample.A 0)
     < retry_count (owdl_state (Scenario.attempt Sample.A 0))
  /\ fst (cancel_state Sample.started_A) = Ok tt
  /\ fst (retry None (snd (cancel_state Sample.started_A))) = Ok tt
  /\ sis (snd (retry None (snd (cancel_state Sample.started_A))))
     = [] ++ [ with_status S_STARTED (Scenario.attempt Sample.A 0);
               {| owdl_state := Sample.A;
                  containers := [Scenario.container CI_STARTED];
                  status := S_STARTED;
                  retry_num :=
                    Z.of_nat (attempts Sample.A (sis Sample.started_A)) |} ].
Proof.
  assert (H1 : sis Sample.started_A = [] ++ [Scenario.attempt Sample.A 0])
    by (vm_compute; reflexivity).
  assert (H2 : retry_num (Scenario.attempt Sample.A 0)
               < retry_count (owdl_state (Scenario.attempt Sample.A 0)))
    by (vm_compute; reflexivity).
  split; [exact H1|]. split; [exact H2|].
  destruct (cancelled_state_can_be_retried Sample.started_A []
              (Scenario.attempt Sample.A 0) None
              [Scenario.container CI_STARTED])
    as (Hc & Hr & Hl & _);
    [vm_compute; reflexivity | exact H1 | reflexivity | exact H2
    | reflexivity | reflexivity | reflexivity |].
  split; [exact Hc|]. split; [exact Hr | exact Hl].
Defined.

Lemma run_state_backend_failure_witness :
  args_fit Sample.A None = true
  /\ fst (_run_state Sample.A None
            (Scenario.on_backend Scenario.down
               (Sample.fresh Sample.workflow CI_STARTED)))
     = Raise (BackendError "down")
  /\ owdl_workflow_instance
       (snd (_run_state Sample.A None
               (Scenario.on_backend Scenario.down
                  (Sample.fresh Sample.workflow CI_STARTED))))
     = owdl_workflow_instance (Sample.fresh Sample.workflow CI_STARTED).
Proof.
  split; [reflexivity|].
  destruct (run_state_backend_failure Sample.A None
              (Scenario.on_backend Scenario.down
                 (Sample.fresh Sample.workflow CI_STARTED))
              (BackendError "down") eq_refl eq_refl)
    as (Hf & Hi & _).
  split; [exact Hf | exact Hi].
Defined.

Lemma run_state_arguments_witness :
  args_fit Sample.B (Some ["--threads=4"]) = true
  /\ exists margs,
       calls (onedocker
                (snd (_run_state Sample.B (Some ["--threads=4"])
                        (Sample.fresh Sample.workflow CI_STARTED))))
       = calls (onedocker (Sample.fresh Sample.workflow CI_STARTED))
         ++ [StartContainers (container_definition Sample.B)
               (package_name Sample.B) margs (timeout Sample.B)]
       /\ length margs = length (cmd_args_list Sample.B)
       /\ (truthy (Some ["--threads=4"]) = false ->
           margs = cmd_args_list Sample.B)
       /\ (truthy (Some ["--threads=4"]) = true ->
           forall i old new,
             cmd_args_list Sample.B !! i = Some old ->
             default [] (Some ["--threads=4"]) !! i = Some new ->
             margs !! i = Some (old +:+ " " +:+ new)).
Proof.
  split; [reflexivity|].
  exact (run_state_arguments Sample.B (Some ["--threads=4"])
           (Sample.fresh Sample.workflow CI_STARTED) eq_refl).
Defined.

Lemma workflow_is_fixed_witness :
  __init__ (Sample.backend CI_FAILED) (Some Sample.repo) "run"
    (Some Sample.workflow)
  = Ok (Sample.fresh Sample.workflow CI_FAILED)
  /\ owdl_workflow
       (perform_all [Start; GetStatus; Retry None]
          (Sample.fresh Sample.workflow CI_FAILED))
     = wi_owdl_workflow
         (owdl_workflow_instance
            (perform_all [Start; GetStatus; Retry None]
               (Sample.fresh Sample.workflow CI_FAILED)))
  /\ owdl_workflow
       (perform_all [Start; GetStatus; Retry None]
          (Sample.fresh Sample.workflow CI_FAILED))
     = owdl_workflow (Sample.fresh Sample.workflow CI_FAILED)
  /\ wi_instance_id
       (owdl_workflow_instance
          (perform_all [Start; GetStatus; Retry None]
             (Sample.fresh Sample.workflow CI_FAILED)))
     = wi_instance_id
         (owdl_workflow_instance (Sample.fresh Sample.workflow CI_FAILED)).
Proof.
  split; [reflexivity|].
  exact (workflow_is_fixed (Sample.backend CI_FAILED) (Some Sample.repo) "run"
           (Some Sample.workflow) (Sample.fresh Sample.workflow CI_FAILED)
           [Start; GetStatus; Retry None] eq_refl).
Defined.

(** C3 fails as stated: an [args] list that is given but empty is not
    checked.  [next] with the empty list, where the state to execute, B,
    takes one argument, does not fail: it calls the backend with B's base
    arguments and appends a state instance of B. *)
Lemma next_empty_args_not_checked :
  wi_status (owdl_workflow_instance (Scenario.completed_A Sample.workflow))
  = W_STARTED
  /\ last (sis (Scenario.completed_A Sample.workflow)) = Some Scenario.done_A
  /\ end_ (owdl_state Scenario.done_A) = false
  /\ next_ (owdl_state Scenario.done_A) = Some "B"
  /\ states (owdl_workflow (Scenario.completed_A Sample.workflow)) !! "B"
     = Some Sample.B
  /\ length ([] : list string) <> length (cmd_args_list Sample.B)
  /\ fst (next (Some []) (Scenario.completed_A Sample.workflow)) = Ok tt
  /\ calls (onedocker
              (snd (next (Some []) (Scenario.completed_A Sample.workflow))))
     = calls (onedocker (Scenario.completed_A Sample.workflow))
       ++ [StartContainers "pce" "aggregate" ["--input=b"] None]
  /\ sis (snd (next (Some []) (Scenario.completed_A Sample.workflow)))
     = sis (Scenario.completed_A Sample.workflow)
       ++ [Scenario.attempt Sample.B 0].
Proof.
  repeat split; by_compute.
Qed.
